(** * OWLCMS schedule scrapers: a shallow embedding and its properties

    The development follows [final_scraper.py] (class [FinalScheduleScraper])
    and [prelim_scraper.py] (class [ScheduleScraper]).

    Modelling conventions.
    - Python [str] is [String.string]; a character is a code point below
      256.  [\s], [str.strip] and [str.isspace] use the code points Python
      regards as white space in that range, [\d] the ASCII digits, and
      [str.isdigit] the ASCII digits and the three superscript digits.
      Case mapping acts on the ASCII letters: the scrapers compare
      case-mapped text with ASCII words only.
    - A dictionary value is a [pyval]: [None], a [str] or an [int].  A
      schedule entry is the record of the seven values stored under the
      keys of the entry dictionaries; an absent key reads as [None], as
      [dict.get] does.
    - An [outcome] is either a returned value or a raised exception.
    - [re] is a backtracking matcher over the constructs the patterns of
      the scrapers use; [datetime.strptime] is the CPython implementation
      restricted to the directives the scrapers use, in the C locale.
    - Instance attributes ([self.current_date], [self.current_session])
      are threaded explicitly through every method that reads or writes
      them.  The tables of a document are those [pdfplumber] returns page
      by page; the records of the store are those its query returns. *)

From Stdlib Require Import String Ascii List ZArith Lia Bool Arith.
From Stdlib Require Import DecimalString Permutation.
Import ListNotations.
Open Scope string_scope.
Open Scope list_scope.

(** ** Outcomes: values and exceptions *)

Inductive exn := ValueError.

Inductive outcome (A : Type) : Type :=
| Returned (a : A)
| Raised (e : exn).
Arguments Returned {A} a.
Arguments Raised {A} e.

Definition obind {A B} (m : outcome A) (f : A -> outcome B) : outcome B :=
  match m with
  | Returned a => f a
  | Raised e => Raised e
  end.

Declare Scope outcome_scope.
Delimit Scope outcome_scope with outcome.
Notation "x <- m ;; k" := (obind m (fun x => k))
  (at level 61, m at next level, right associativity) : outcome_scope.

(** [try: m except ValueError: h] *)
Definition try_except {A} (m : outcome A) (h : outcome A) : outcome A :=
  match m with
  | Returned a => Returned a
  | Raised ValueError => h
  end.

(** ** Python text primitives *)

Module Py.

Definition code (c : ascii) : nat := nat_of_ascii c.

Definition range (lo hi c : ascii) : bool :=
  (code lo <=? code c)%nat && (code c <=? code hi)%nat.

(** [str.isspace] on one character, for code points below 256. *)
Definition is_space (c : ascii) : bool :=
  let n := code c in
  ((9 <=? n) && (n <=? 13) || (28 <=? n) && (n <=? 32)
   || (n =? 133) || (n =? 160))%nat.

Definition is_digit (c : ascii) : bool := range "0" "9" c.
Definition is_upper (c : ascii) : bool := range "A" "Z" c.
Definition is_lower (c : ascii) : bool := range "a" "z" c.

Definition lower_char (c : ascii) : ascii :=
  if is_upper c then ascii_of_nat (code c + 32) else c.
Definition upper_char (c : ascii) : ascii :=
  if is_lower c then ascii_of_nat (code c - 32) else c.

Fixpoint smap (f : ascii -> ascii) (s : string) : string :=
  match s with
  | EmptyString => EmptyString
  | String c s' => String (f c) (smap f s')
  end.

(** [s.lower()] *)
Definition lower (s : string) : string := smap lower_char s.

(** [s.capitalize()] *)
Definition capitalize (s : string) : string :=
  match s with
  | EmptyString => EmptyString
  | String c s' => String (upper_char c) (lower s')
  end.

Fixpoint lstrip (s : string) : string :=
  match s with
  | EmptyString => EmptyString
  | String c s' => if is_space c then lstrip s' else s
  end.

Fixpoint rstrip (s : string) : string :=
  match s with
  | EmptyString => EmptyString
  | String c s' =>
      match rstrip s' with
      | EmptyString => if is_space c then EmptyString else String c EmptyString
      | r => String c r
      end
  end.

(** [s.strip()] *)
Definition strip (s : string) : string := rstrip (lstrip s).

Fixpoint all_chars (p : ascii -> bool) (s : string) : bool :=
  match s with
  | EmptyString => true
  | String c s' => p c && all_chars p s'
  end.

(** [c.isdigit()]: the decimal digits and the superscripts one, two, three. *)
Definition isdigit_char (c : ascii) : bool :=
  is_digit c || (code c =? 178)%nat || (code c =? 179)%nat || (code c =? 185)%nat.

(** [s.isdigit()] *)
Definition isdigit (s : string) : bool :=
  match s with
  | EmptyString => false
  | _ => all_chars isdigit_char s
  end.

Definition digit_val (c : ascii) : Z := Z.of_nat (code c - 48).

Fixpoint int_acc (acc : Z) (s : string) : Z :=
  match s with
  | EmptyString => acc
  | String c s' => int_acc (10 * acc + digit_val c) s'
  end.

(** [int(s)] for a string of decimal digits. *)
Definition int (s : string) : Z := int_acc 0 s.

(** [int(s)] on a string that passed [isdigit]: a superscript digit is
    not a decimal digit, and [int] raises on it. *)
Definition int_checked (s : string) : outcome Z :=
  if all_chars is_digit s then Returned (int s) else Raised ValueError.

(** [needle in hay] *)
Fixpoint contains (needle hay : string) : bool :=
  prefix needle hay
  || match hay with
     | EmptyString => false
     | String _ hay' => contains needle hay'
     end.

(** [any(k in s for k in ks)] *)
Definition any_in (ks : list string) (s : string) : bool :=
  existsb (fun k => contains k s) ks.

Definition nl : ascii := "010"%char.

(** [s.replace('\n', ' ')] *)
Definition replace_nl (s : string) : string :=
  smap (fun c => if Ascii.eqb c nl then " "%char else c) s.

(** [' '.join(parts)] *)
Definition join_sp (parts : list string) : string := String.concat " " parts.

(** [str(n)] for an [int]. *)
Definition str_of_int (z : Z) : string := NilZero.string_of_int (Z.to_int z).

(** Zero padding to a minimal width, as [%02d] and [%04d] do. *)
Fixpoint zfill (w : nat) (s : string) : string :=
  match w with
  | O => s
  | S w' => if (String.length s <? w)%nat then zfill w' (String "0" s) else s
  end.

Definition pad2 (z : Z) : string := zfill 2 (str_of_int z).

End Py.

(** ** Regular expressions: the fragment of [re] the scrapers use

    Matching is the backtracking search of [re]: alternatives are tried
    left to right, quantifiers are greedy, and a failure further right
    makes the matcher come back to the last choice.  The continuation [k]
    is the rest of the pattern. *)

Module Re.
Import Py.

Inductive regex :=
| Eps                                             (* the empty pattern *)
| Chr (c : ascii)                                 (* a literal character *)
| Cls (p : ascii -> bool)                         (* a character class *)
| Cat (r1 r2 : regex)
| Alt (r1 r2 : regex)                             (* r1|r2 *)
| Rep (p : ascii -> bool) (lo : nat) (hi : option nat)   (* p{lo,hi}, greedy *)
| Opt (r : regex)                                 (* r?, greedy *)
| Grp (g : string) (r : regex)                    (* a capturing group *)
| Eos                                             (* $ *)
| Never.                                          (* matches nothing *)

Declare Scope re_scope.
Delimit Scope re_scope with re.
Infix "~>" := Cat (at level 40, left associativity) : re_scope.
Infix "|||" := Alt (at level 50, left associativity) : re_scope.

Fixpoint lit (s : string) : regex :=
  match s with
  | EmptyString => Eps
  | String c s' => Cat (Chr c) (lit s')
  end.

Definition d : regex := Cls is_digit.               (* \d *)
Definition plus (p : ascii -> bool) : regex := Rep p 1 None.   (* p+ *)
Definition star (p : ascii -> bool) : regex := Rep p 0 None.   (* p* *)

(** Captured groups, the most recent first. *)
Definition caps := list (string * string).

Fixpoint group (g : string) (cs : caps) : option string :=
  match cs with
  | [] => None
  | (g', t) :: cs' => if String.eqb g g' then Some t else group g cs'
  end.

(** The text consumed between [s] and its suffix [rest]. *)
Definition consumed (s rest : string) : string :=
  substring 0 (String.length s - String.length rest) s.

(** [$] matches at the end and just before a final newline. *)
Definition at_end (s : string) : bool :=
  match s with
  | EmptyString => true
  | String c EmptyString => Ascii.eqb c nl
  | _ => false
  end.

Section Matcher.
Context {R : Type}.
Variable ic : bool.                                (* re.IGNORECASE *)

Definition chr_ok (c x : ascii) : bool :=
  if ic then Ascii.eqb (lower_char c) (lower_char x) else Ascii.eqb c x.

Definition cls_ok (p : ascii -> bool) (x : ascii) : bool :=
  p x || (ic && (p (lower_char x) || p (upper_char x))).

Fixpoint rep (p : ascii -> bool) (lo : nat) (hi : option nat) (s : string)
    (k : string -> option R) {struct s} : option R :=
  let stop := match lo with O => k s | S _ => None end in
  match hi, s with
  | Some O, _ => stop
  | _, String c s' =>
      if cls_ok p c then
        match rep p (pred lo) (option_map pred hi) s' k with
        | Some x => Some x
        | None => stop
        end
      else stop
  | _, EmptyString => stop
  end.

Fixpoint mtch (r : regex) (s : string) (cs : caps)
    (k : string -> caps -> option R) {struct r} : option R :=
  match r with
  | Eps => k s cs
  | Chr c =>
      match s with
      | String x s' => if chr_ok c x then k s' cs else None
      | EmptyString => None
      end
  | Cls p =>
      match s with
      | String x s' => if cls_ok p x then k s' cs else None
      | EmptyString => None
      end
  | Cat r1 r2 => mtch r1 s cs (fun s' cs' => mtch r2 s' cs' k)
  | Alt r1 r2 =>
      match mtch r1 s cs k with
      | Some x => Some x
      | None => mtch r2 s cs k
      end
  | Rep p lo hi => rep p lo hi s (fun s' => k s' cs)
  | Opt r1 =>
      match mtch r1 s cs k with
      | Some x => Some x
      | None => k s cs
      end
  | Grp g r1 => mtch r1 s cs (fun s' cs' => k s' ((g, consumed s s') :: cs'))
  | Eos => if at_end s then k s cs else None
  | Never => None
  end.
End Matcher.

(** [re.compile(r, flags).match(s)]: the unconsumed rest and the groups. *)
Definition match_ (ic : bool) (r : regex) (s : string) : option (string * caps) :=
  mtch ic r s [] (fun rest cs => Some (rest, cs)).

(** [re.search(r, s)]: the leftmost match. *)
Fixpoint search (r : regex) (s : string) : option caps :=
  match match_ false r s with
  | Some (_, cs) => Some cs
  | None =>
      match s with
      | EmptyString => None
      | String _ s' => search r s'
      end
  end.

(** [re.sub(r, '', s)]: every non-overlapping match, leftmost first, is
    removed.  [skip] counts the characters of the current match still to be
    dropped. *)
Fixpoint sub_empty (r : regex) (skip : nat) (s : string) : string :=
  match s with
  | EmptyString => EmptyString
  | String c s' =>
      match skip with
      | S n => sub_empty r n s'
      | O =>
          match match_ false r s with
          | Some (rest, _) =>
              match (String.length s - String.length rest)%nat with
              | O => String c (sub_empty r 0 s')
              | S n => sub_empty r n s'
              end
          | None => String c (sub_empty r 0 s')
          end
      end
  end.

End Re.

(** ** Dates and times of [datetime] *)

Module Datetime.
Import Py.

Record time := { hour : Z; minute : Z; second : Z }.
Record datetime :=
  { year : Z; month : Z; day : Z; dt_hour : Z; dt_minute : Z; dt_second : Z }.

Definition is_leap (y : Z) : bool :=
  ((y mod 4 =? 0) && (negb (y mod 100 =? 0) || (y mod 400 =? 0)))%Z.

Definition days_in_month (y m : Z) : Z :=
  if (m =? 2)%Z then (if is_leap y then 29 else 28)
  else if ((m =? 4) || (m =? 6) || (m =? 9) || (m =? 11))%Z then 30
  else 31.

Definition between (lo x hi : Z) : bool := ((lo <=? x) && (x <=? hi))%Z.

Definition valid_date (y m dd : Z) : bool :=
  between 1 y 9999 && between 1 m 12 && between 1 dd (days_in_month y m).

Definition valid_time (h mi s : Z) : bool :=
  between 0 h 23 && between 0 mi 59 && between 0 s 59.

(** [datetime.time(hour, minute)]: out-of-range arguments raise. *)
Definition datetime_time (h mi : Z) : outcome time :=
  if valid_time h mi 0
  then Returned {| hour := h; minute := mi; second := 0 |}
  else Raised ValueError.

(** [datetime(year, month, day, hour, minute, second)] *)
Definition mk_datetime (y m dd h mi s : Z) : outcome datetime :=
  if valid_date y m dd && valid_time h mi s
  then Returned {| year := y; month := m; day := dd;
                   dt_hour := h; dt_minute := mi; dt_second := s |}
  else Raised ValueError.

(** [dt.time()] *)
Definition time_of (x : datetime) : time :=
  {| hour := dt_hour x; minute := dt_minute x; second := dt_second x |}.

(** [t.strftime('%H:%M:%S')] *)
Definition strftime_HMS (t : time) : string :=
  pad2 (hour t) ++ ":" ++ pad2 (minute t) ++ ":" ++ pad2 (second t).

(** [dt.strftime('%Y-%m-%d')]; the C library prints the year without
    zero fill. *)
Definition strftime_Ymd (x : datetime) : string :=
  str_of_int (year x) ++ "-" ++ pad2 (month x) ++ "-" ++ pad2 (day x).

End Datetime.

(** ** [datetime.strptime]

    CPython turns the format into a regular expression, one named group
    per directive, compiles it with [re.IGNORECASE], matches it at the
    start of the text, and raises [ValueError] when it does not match or
    when text remains after the match.  The fields found are then checked
    by the [datetime] constructor. *)

Module Strptime.
Import Py Re Datetime.
Open Scope re_scope.

Definition f_month : list string :=
  ["january"; "february"; "march"; "april"; "may"; "june"; "july";
   "august"; "september"; "october"; "november"; "december"].
Definition a_month : list string :=
  ["jan"; "feb"; "mar"; "apr"; "may"; "jun"; "jul"; "aug"; "sep"; "oct";
   "nov"; "dec"].

(** Stable insertion by decreasing length: [sorted(xs, key=len, reverse=True)]. *)
Fixpoint insert_len (x : string) (xs : list string) : list string :=
  match xs with
  | [] => [x]
  | y :: ys =>
      if (String.length y <? String.length x)%nat then x :: xs
      else y :: insert_len x ys
  end.
Definition sort_len (xs : list string) : list string :=
  fold_left (fun acc x => insert_len x acc) xs [].

(** [__seqToRE]: an alternation of the words, the longest first. *)
Definition seqToRE (g : string) (xs : list string) : regex :=
  Grp g (fold_right (fun x r => lit x ||| r) Never (sort_len xs)).

Definition cr (lo hi : ascii) : regex := Cls (range lo hi).

Definition directive (c : ascii) : regex :=
  if Ascii.eqb c "d" then
    Grp "d" (Chr "3" ~> cr "0" "1" ||| cr "1" "2" ~> d ||| Chr "0" ~> cr "1" "9"
             ||| cr "1" "9" ||| Chr " " ~> cr "1" "9")
  else if Ascii.eqb c "H" then
    Grp "H" (Chr "2" ~> cr "0" "3" ||| cr "0" "1" ~> d ||| d)
  else if Ascii.eqb c "I" then
    Grp "I" (Chr "1" ~> cr "0" "2" ||| Chr "0" ~> cr "1" "9" ||| cr "1" "9")
  else if Ascii.eqb c "m" then
    Grp "m" (Chr "1" ~> cr "0" "2" ||| Chr "0" ~> cr "1" "9" ||| cr "1" "9")
  else if Ascii.eqb c "M" then
    Grp "M" (cr "0" "5" ~> d ||| d)
  else if Ascii.eqb c "S" then
    Grp "S" (Chr "6" ~> cr "0" "1" ||| cr "0" "5" ~> d ||| d)
  else if Ascii.eqb c "y" then Grp "y" (d ~> d)
  else if Ascii.eqb c "Y" then Grp "Y" (d ~> d ~> d ~> d)
  else if Ascii.eqb c "B" then seqToRE "B" f_month
  else if Ascii.eqb c "b" then seqToRE "b" a_month
  else if Ascii.eqb c "p" then seqToRE "p" ["am"; "pm"]
  else Never.

(** [TimeRE.pattern]: a run of white space in the format stands for
    [\s+], [%x] for the expression of the directive [x], any other
    character for itself. *)
Fixpoint pattern (format : string) : regex :=
  match format with
  | EmptyString => Eps
  | String c rest =>
      if Ascii.eqb c "%" then
        match rest with
        | String x rest' => directive x ~> pattern rest'
        | EmptyString => Never
        end
      else if is_space c then
        match rest with
        | String c' _ =>
            if is_space c' then pattern rest else plus is_space ~> pattern rest
        | EmptyString => plus is_space
        end
      else Chr c ~> pattern rest
  end.

(** The fields [_strptime] collects, with their defaults. *)
Record fields :=
  { f_year : option Z; f_mon : Z; f_day : Z; f_hour : Z; f_min : Z; f_sec : Z }.

Definition no_fields : fields :=
  {| f_year := None; f_mon := 1; f_day := 1; f_hour := 0; f_min := 0; f_sec := 0 |}.

(** [xs.index(x)], counted from [start]. *)
Fixpoint index_from (start : Z) (x : string) (xs : list string) : Z :=
  match xs with
  | [] => start
  | y :: ys => if String.eqb x y then start else index_from (start + 1) x ys
  end.

(** One turn of the loop over [found_dict]: the group [g] holds [t]. *)
Definition set_field (cs : caps) (fs : fields) (gt : string * string) : fields :=
  let (g, t) := gt in
  let upd y mo dd h mi s :=
    {| f_year := y; f_mon := mo; f_day := dd; f_hour := h; f_min := mi; f_sec := s |} in
  let '(y, mo, dd, h, mi, s) :=
    (f_year fs, f_mon fs, f_day fs, f_hour fs, f_min fs, f_sec fs) in
  if g =? "y" then
    upd (Some (if (int t <=? 68)%Z then int t + 2000 else int t + 1900)%Z) mo dd h mi s
  else if g =? "Y" then upd (Some (int t)) mo dd h mi s
  else if g =? "m" then upd y (int t) dd h mi s
  else if g =? "B" then upd y (index_from 1 (lower t) f_month) dd h mi s
  else if g =? "b" then upd y (index_from 1 (lower t) a_month) dd h mi s
  else if g =? "d" then upd y mo (int t) h mi s
  else if g =? "H" then upd y mo dd (int t) mi s
  else if g =? "I" then
    let ampm := match group "p" cs with Some p => lower p | None => "" end in
    let h0 := int t in
    let h1 :=
      if (ampm =? "") || (ampm =? "am") then (if (h0 =? 12)%Z then 0%Z else h0)
      else if ampm =? "pm" then (if negb (h0 =? 12)%Z then (h0 + 12)%Z else h0)
      else h0 in
    upd y mo dd h1 mi s
  else if g =? "M" then upd y mo dd h (int t) s
  else if g =? "S" then upd y mo dd h mi (int t)
  else fs.

(** [datetime.strptime(data, format)] *)
Definition strptime (data format : string) : outcome datetime :=
  match match_ true (pattern format) data with
  | None => Raised ValueError
  | Some (rest, cs) =>
      if negb (rest =? "") then Raised ValueError
      else
        let fs := fold_left (set_field cs) (rev cs) no_fields in
        let y :=
          match f_year fs with
          | Some y => y
          | None => if ((f_mon fs =? 2) && (f_day fs =? 29))%Z then 1904%Z else 1900%Z
          end in
        mk_datetime y (f_mon fs) (f_day fs) (f_hour fs) (f_min fs) (f_sec fs)
  end.

End Strptime.

(** ** Code shared by the two scrapers

    [_parse_time] and [format_for_database] have the same text in
    [FinalScheduleScraper] and in [ScheduleScraper]. *)

Module Scraper.
Import Py Re Datetime Strptime.
Open Scope re_scope.

(** The values stored in the dictionaries. *)
Inductive pyval :=
| PNone
| PStr (s : string)
| PInt (z : Z).

(** Truth value of a value, as [all], [if] and [not] take it. *)
Definition truthy (v : pyval) : bool :=
  match v with
  | PNone => false
  | PStr s => negb (s =? "")
  | PInt z => negb (z =? 0)%Z
  end.

(** [v1 == v2] *)
Definition pyval_eqb (v1 v2 : pyval) : bool :=
  match v1, v2 with
  | PNone, PNone => true
  | PStr a, PStr b => String.eqb a b
  | PInt a, PInt b => Z.eqb a b
  | _, _ => false
  end.

(** [str(v)] *)
Definition str (v : pyval) : string :=
  match v with
  | PNone => "None"
  | PStr s => s
  | PInt z => str_of_int z
  end.

(** A schedule entry: the values under the seven keys. *)
Record entry :=
  { date : pyval; session_id : pyval; start_time : pyval;
    weigh_in_time : pyval; platform : pyval; weight_class : pyval;
    meet : pyval }.

(** A table of [pdfplumber]: rows of cells, a cell being text or [None]. *)
Definition row := list (option string).
Definition table := list row.

(** [str(cell or '')] *)
Definition cell_str (c : option string) : string :=
  match c with Some s => s | None => "" end.

(** [str(row[i] or '')], for an index within the row. *)
Definition cell (r : row) (i : nat) : string :=
  match nth_error r i with Some c => cell_str c | None => "" end.

(** [\s+[A-E]$] *)
Definition group_suffix_re : regex := plus is_space ~> Cls (range "A" "E") ~> Eos.

(** [re.sub(r'\s+[A-E]$', '', weight_category).strip()] *)
Definition clean_weight_class (weight_category : string) : string :=
  strip (sub_empty group_suffix_re 0 weight_category).

(** The loop [for fmt in formats: try: ... except ValueError: continue]. *)
Fixpoint first_format (formats : list string) (s : string) : option datetime :=
  match formats with
  | [] => None
  | fmt :: formats' =>
      match strptime s fmt with
      | Returned dt => Some dt
      | Raised ValueError => first_format formats' s
      end
  end.

Definition time_formats : list string :=
  ["%H:%M:%S"; "%H:%M"; "%I:%M %p"; "%I:%M%p"].

(** [(\d{1,2}):(\d{2})\s*(am|pm)?] *)
Definition time_re : regex :=
  Grp "1" (Rep is_digit 1 (Some 2)) ~> Chr ":" ~> Grp "2" (Rep is_digit 2 (Some 2))
  ~> star is_space ~> Opt (Grp "3" (lit "am" ||| lit "pm")).

Definition group_text (g : string) (m : caps) : string :=
  match group g m with Some t => t | None => "" end.

Definition _parse_time (time_str : string) : outcome (option time) :=
  if time_str =? "" then Returned None
  else
    let time_str := strip time_str in
    match first_format time_formats time_str with
    | Some dt => Returned (Some (time_of dt))
    | None =>
        match search time_re (lower time_str) with
        | Some m =>
            let hour := int (group_text "1" m) in
            let minute := int (group_text "2" m) in
            let am_pm := group "3" m in
            let hour :=
              match am_pm with
              | Some "pm" => if (hour <? 12)%Z then (hour + 12)%Z else hour
              | Some "am" => if (hour =? 12)%Z then 0%Z else hour
              | _ => hour
              end in
            (t <- datetime_time hour minute ;; Returned (Some t))%outcome
        | None => Returned None
        end
    end.

(** [formatted_entry.values()] *)
Definition values (e : entry) : list pyval :=
  [date e; session_id e; start_time e; weigh_in_time e; platform e;
   weight_class e; meet e].

(** The dictionary [formatted_entry]: the entry rebuilt key by key with
    [get]. *)
Definition formatted_entry (e : entry) : entry :=
  {| date := date e; session_id := session_id e;
     start_time := start_time e; weigh_in_time := weigh_in_time e;
     platform := platform e; weight_class := weight_class e;
     meet := meet e |}.

(** The body of [for entry in entries]: the rebuilt entry is appended
    when [all] of its values are true. *)
Definition format_step (formatted : list entry) (e : entry) : list entry :=
  if forallb truthy (values (formatted_entry e))
  then formatted ++ [formatted_entry e]
  else formatted.

Definition format_for_database (entries : list entry) : list entry :=
  fold_left format_step entries [].

(** *** Dictionaries keyed by a 4-tuple

    A [dict] keeps its keys in the order of their first insertion;
    assigning to a key already present replaces the value in place. *)

Definition key : Type := pyval * pyval * pyval * pyval.

Definition key_eqb (k1 k2 : key) : bool :=
  let '(a1, b1, c1, d1) := k1 in
  let '(a2, b2, c2, d2) := k2 in
  pyval_eqb a1 a2 && pyval_eqb b1 b2 && pyval_eqb c1 c2 && pyval_eqb d1 d2.

Definition dict (V : Type) : Type := list (key * V).

(** [d[k] = v] *)
Fixpoint dict_set {V} (k : key) (v : V) (d : dict V) : dict V :=
  match d with
  | [] => [(k, v)]
  | (k', v') :: d' =>
      if key_eqb k k' then (k', v) :: d' else (k', v') :: dict_set k v d'
  end.

(** [d[k]], [None] standing for [k not in d]. *)
Fixpoint dict_get {V} (k : key) (d : dict V) : option V :=
  match d with
  | [] => None
  | (k', v') :: d' => if key_eqb k k' then Some v' else dict_get k d'
  end.

Definition dict_keys {V} (d : dict V) : list key := map fst d.
Definition dict_values {V} (d : dict V) : list V := map snd d.

(** [for x in xs: d[key_of(x)] = x], from the empty dictionary. *)
Definition by_key_step (key_of : entry -> key) (d : dict entry) (x : entry)
    : dict entry :=
  dict_set (key_of x) x d.
Definition by_key (key_of : entry -> key) (xs : list entry) : dict entry :=
  fold_left (by_key_step key_of) xs [].

(** The three lists a dry run fills. *)
Record partitions :=
  { to_add : list entry;
    to_update : list (entry * entry);        (* ('existing', 'new') *)
    unchanged : list entry }.

(** The counts a dry run returns. *)
Record stats :=
  { total_new : nat; total_existing : nat; n_to_add : nat;
    n_to_update : nat; n_unchanged : nat }.

(** The body of [for key, new_entry in new_by_key.items()] in [dry_run];
    [differs existing new_entry] is the test that sends a key present on
    both sides to [to_update]. *)
Definition classify_step (differs : entry -> entry -> bool)
    (existing_by_key : dict entry) (acc : partitions) (kv : key * entry)
    : partitions :=
  let '(key, new_entry) := kv in
  match dict_get key existing_by_key with
  | None =>
      {| to_add := to_add acc ++ [new_entry];
         to_update := to_update acc; unchanged := unchanged acc |}
  | Some existing =>
      if differs existing new_entry
      then {| to_add := to_add acc;
              to_update := to_update acc ++ [(existing, new_entry)];
              unchanged := unchanged acc |}
      else {| to_add := to_add acc; to_update := to_update acc;
              unchanged := unchanged acc ++ [new_entry] |}
  end.

Definition classify (differs : entry -> entry -> bool)
    (existing_by_key new_by_key : dict entry) : partitions :=
  fold_left (classify_step differs existing_by_key) new_by_key
    {| to_add := []; to_update := []; unchanged := [] |}.

(** What [upsert_to_database] hands to the store and prints: [sent] is the
    batch passed to [upsert] ([None] when no call is made), [removed] the
    count of the duplicate warning ([None] when it is not printed). *)
Record upsert_call := { sent : option (list entry); removed : option nat }.

End Scraper.

(** ** [final_scraper.py]: class [FinalScheduleScraper] *)

Module Final.
Import Py Re Datetime Strptime Scraper.
Open Scope re_scope.

(** The instance attribute the parser reads and writes. *)
Record scraper := { self_current_date : option string }.

(** [__init__] sets [self.current_date = None]. *)
Definition init : scraper := {| self_current_date := None |}.

Definition month_abbrs : list string :=
  ["Jan"; "Feb"; "Mar"; "Apr"; "May"; "Jun"; "Jul"; "Aug"; "Sep"; "Oct";
   "Nov"; "Dec"].

(** [(Jan|Feb|...|Dec)\s+(\d{1,2})] *)
Definition short_date_re : regex :=
  Grp "1" (fold_right (fun m r => lit m ||| r) Never month_abbrs)
  ~> plus is_space ~> Grp "2" (Rep is_digit 1 (Some 2)).

(** [month_map.get(month_str)] *)
Definition month_map (month_str : string) : option Z :=
  let i := index_from 1 month_str month_abbrs in
  if (i <=? 12)%Z then Some i else None.

Definition _parse_date_from_short (date_str : string) : option string :=
  if date_str =? "" then None
  else
    let date_str := replace_nl (strip date_str) in
    match search short_date_re date_str with
    | Some m =>
        let month_str := group_text "1" m in
        let day := group_text "2" m in
        let year := 2025%Z in
        match month_map month_str with
        | Some month =>
            match mk_datetime year month (int day) 0 0 0 with
            | Returned dt => Some (strftime_Ymd dt)
            | Raised ValueError => None
            end
        | None => None
        end
    | None => None
    end.

(** The local variables of [_parse_table] that live across rows. *)
Record locals :=
  { entries : list entry;
    current_session : option Z;
    current_date : option string;
    last_start_time : option string }.

Definition some_true (o : option string) : bool :=
  match o with Some s => negb (s =? "") | None => false end.
Definition session_true (o : option Z) : bool :=
  match o with Some n => negb (n =? 0)%Z | None => false end.

Definition str_or_none (o : option string) : pyval :=
  match o with Some x => PStr x | None => PNone end.
Definition int_or_none (o : option Z) : pyval :=
  match o with Some n => PInt n | None => PNone end.

Definition platforms : list string := ["RED"; "WHITE"; "BLUE"].
Definition mem (x : string) (xs : list string) : bool := existsb (String.eqb x) xs.

(** The body of [for row in table].  The attribute is written before
    anything in the body can raise, so the scraper is returned whatever
    the outcome. *)
Definition parse_row (meet_name : string) (self : scraper) (st : locals)
    (r : row) : outcome locals * scraper :=
  if (length r <? 7)%nat then (Returned st, self)
  else
    let date_str := strip (cell r 0) in
    let session_str := strip (cell r 1) in
    let platform := strip (cell r 2) in
    let weigh_time_str := strip (cell r 3) in
    let start_time_str := strip (cell r 4) in
    let weight_category := strip (cell r 6) in
    (* Update current date if present *)
    let parsed_date :=
      if negb (date_str =? "") && any_in month_abbrs date_str
      then _parse_date_from_short date_str else None in
    let '(current_date, self) :=
      if some_true parsed_date
      then (parsed_date, {| self_current_date := parsed_date |})
      else (current_date st, self) in
    (* Check if this is a new session based on time change *)
    let is_new_session :=
      (session_str =? "") && (platform =? "RED")
      && negb (start_time_str =? "")
      && match last_start_time st with
         | Some t => negb (t =? "") && negb (start_time_str =? t)
         | None => false
         end
      && session_true (current_session st) in
    (* Update current session if present *)
    let upd :=
      if negb (session_str =? "") && isdigit session_str
      then (n <- int_checked session_str ;; Returned (Some n, None))%outcome
      else Returned (current_session st, last_start_time st) in
    match upd with
    | Raised e => (Raised e, self)
    | Returned (current_session, last_start_time) =>
        let skip :=
          {| entries := entries st; current_session := current_session;
             current_date := current_date; last_start_time := last_start_time |} in
        if (platform =? "") || negb (mem platform platforms) then (Returned skip, self)
        else if (start_time_str =? "") || (weigh_time_str =? "") then (Returned skip, self)
        else if negb (some_true current_date) || negb (session_true current_session)
        then (Returned skip, self)
        else
          ((start_time <- _parse_time start_time_str ;;
            weigh_time <- _parse_time weigh_time_str ;;
            match start_time, weigh_time with
            | Some start_time, Some weigh_time =>
                let last_start_time :=
                  if platform =? "RED" then Some start_time_str else last_start_time in
                let weight_class := clean_weight_class weight_category in
                let platform := capitalize platform in
                let entry :=
                  {| date := str_or_none current_date;
                     session_id := int_or_none current_session;
                     start_time := PStr (strftime_HMS start_time);
                     weigh_in_time := PStr (strftime_HMS weigh_time);
                     Scraper.platform := PStr platform;
                     Scraper.weight_class := PStr weight_class;
                     meet := PStr meet_name |} in
                Returned
                  {| entries := entries st ++ [entry];
                     current_session :=
                       if is_new_session
                       then option_map (fun n => n + 1)%Z current_session
                       else current_session;
                     current_date := current_date;
                     last_start_time := last_start_time |}
            | _, _ => Returned skip
            end)%outcome, self)
    end.

(** [for row in table], stopping at the first exception. *)
Fixpoint parse_rows (meet_name : string) (self : scraper) (st : locals)
    (rows : table) : outcome locals * scraper :=
  match rows with
  | [] => (Returned st, self)
  | r :: rows' =>
      match parse_row meet_name self st r with
      | (Returned st', self') => parse_rows meet_name self' st' rows'
      | (Raised e, self') => (Raised e, self')
      end
  end.

Definition _parse_table (self : scraper) (t : table) (meet_name : string)
    : outcome (list entry) * scraper :=
  let st0 :=
    {| entries := []; current_session := None;
       current_date := self_current_date self; last_start_time := None |} in
  match parse_rows meet_name self st0 t with
  | (Returned st, self') => (Returned (entries st), self')
  | (Raised e, self') => (Raised e, self')
  end.

(** A decoded document: the tables of each page, in order. *)
Definition document := list (list table).

(** [for table in tables] of [extract_schedule_data]. *)
Fixpoint parse_tables (meet_name : string) (self : scraper)
    (schedule_entries : list entry) (tables : list table)
    : outcome (list entry) * scraper :=
  match tables with
  | [] => (Returned schedule_entries, self)
  | t :: tables' =>
      if (length t <? 2)%nat
      then parse_tables meet_name self schedule_entries tables'
      else
        match _parse_table self t meet_name with
        | (Returned es, self') =>
            parse_tables meet_name self' (schedule_entries ++ es) tables'
        | (Raised e, self') => (Raised e, self')
        end
  end.

(** [for page in pdf.pages] of [extract_schedule_data]. *)
Fixpoint parse_pages (meet_name : string) (self : scraper)
    (schedule_entries : list entry) (pages : document)
    : outcome (list entry) * scraper :=
  match pages with
  | [] => (Returned schedule_entries, self)
  | tables :: pages' =>
      match parse_tables meet_name self schedule_entries tables with
      | (Returned es, self') => parse_pages meet_name self' es pages'
      | (Raised e, self') => (Raised e, self')
      end
  end.

Definition extract_schedule_data (self : scraper) (pdf : document)
    (meet_name : string) : outcome (list entry) * scraper :=
  parse_pages meet_name self [] pdf.

(** The uniqueness key of [dry_run] and [upsert_to_database]. *)
Definition key_of (e : entry) : key :=
  (meet e, session_id e, platform e, weight_class e).

(** The update test of [dry_run]. *)
Definition differs (existing new_entry : entry) : bool :=
  negb (pyval_eqb (PStr (str (date existing))) (date new_entry))
  || negb (pyval_eqb (start_time existing) (start_time new_entry))
  || negb (pyval_eqb (weigh_in_time existing) (weigh_in_time new_entry)).

(** The lists [to_add], [to_update] and [unchanged] of [dry_run], for the
    records the store returned for the meet. *)
Definition dry_run_partitions (existing_records new_entries : list entry)
    : partitions :=
  classify differs (by_key key_of existing_records) (by_key key_of new_entries).

Definition dry_run (existing_records new_entries : list entry) : stats :=
  let p := dry_run_partitions existing_records new_entries in
  {| total_new := length new_entries;
     total_existing := length existing_records;
     n_to_add := length (to_add p);
     n_to_update := length (to_update p);
     n_unchanged := length (unchanged p) |}.

Definition upsert_to_database (entries : list entry) : upsert_call :=
  match entries with
  | [] => {| sent := None; removed := None |}
  | _ =>
      let seen := by_key key_of entries in
      let deduplicated := dict_values seen in
      {| sent := Some deduplicated;
         removed :=
           if (length deduplicated <? length entries)%nat
           then Some (length entries - length deduplicated)%nat
           else None |}
  end.

End Final.

(** ** [prelim_scraper.py]: class [ScheduleScraper] *)

Module Prelim.
Import Py Re Datetime Strptime Scraper.
Open Scope re_scope.

(** The instance attributes the parser reads and writes. *)
Record scraper :=
  { self_current_date : option string; self_current_session : option Z }.

Definition month_names : list string :=
  ["January"; "February"; "March"; "April"; "May"; "June"; "July";
   "August"; "September"; "October"; "November"; "December"].

Definition date_formats : list string :=
  ["%Y-%m-%d"; "%m/%d/%Y"; "%m/%d/%y"; "%B %d, %Y"; "%b %d, %Y"].

Definition _parse_date (date_str : string) : option string :=
  if date_str =? "" then None
  else
    let date_str := strip date_str in
    match first_format date_formats date_str with
    | Some dt => Some (strftime_Ymd dt)
    | None => None
    end.

(** [([A-Z][a-z]+)\s+(\d{1,2}),?\s+(\d{4})] *)
Definition text_date_re : regex :=
  Grp "1" (Cls (range "A" "Z") ~> plus (range "a" "z")) ~> plus is_space
  ~> Grp "2" (Rep is_digit 1 (Some 2)) ~> Opt (Chr ",") ~> plus is_space
  ~> Grp "3" (Rep is_digit 4 (Some 4)).

Definition _parse_date_from_text (date_str : string) : option string :=
  if date_str =? "" then None
  else
    let date_str := strip date_str in
    let from_match :=
      match search text_date_re date_str with
      | Some m =>
          let month_str := group_text "1" m in
          let day := group_text "2" m in
          let year := group_text "3" m in
          match strptime (month_str ++ " " ++ day ++ " " ++ year) "%B %d %Y" with
          | Returned dt => Some (strftime_Ymd dt)
          | Raised ValueError => None
          end
      | None => None
      end in
    match from_match with
    | Some iso => Some iso
    | None => _parse_date date_str
    end.

(** [header_map]: the column index recorded for each role, if any. *)
Record header_map :=
  { date_idx : option nat; session_idx : option nat;
    platform_idx : option nat; weigh_idx : option nat;
    time_idx : option nat; weight_class_idx : option nat }.

Definition no_headers : header_map :=
  {| date_idx := None; session_idx := None; platform_idx := None;
     weigh_idx := None; time_idx := None; weight_class_idx := None |}.

(** [header_map.get(k, default)] *)
Definition get (o : option nat) (default : nat) : nat :=
  match o with Some i => i | None => default end.

(** One turn of [for idx, header in enumerate(headers)]. *)
Definition map_header (hm : header_map) (idx : nat) (header : option string)
    : header_map :=
  let upd a b c d e f :=
    {| date_idx := a; session_idx := b; platform_idx := c; weigh_idx := d;
       time_idx := e; weight_class_idx := f |} in
  let '(a, b, c, d, e, f) :=
    (date_idx hm, session_idx hm, platform_idx hm, weigh_idx hm, time_idx hm,
     weight_class_idx hm) in
  if cell_str header =? "" then hm
  else
    let header_lower := replace_nl (strip (lower (cell_str header))) in
    if contains "weight" header_lower && contains "category" header_lower
    then upd a b c d e (Some idx)
    else if header_lower =? "weigh" then upd a b c (Some idx) e f
    else if contains "date" header_lower then upd (Some idx) b c d e f
    else if contains "sess" header_lower then upd a (Some idx) c d e f
    else if contains "plat" header_lower then upd a b (Some idx) d e f
    else if contains "time" header_lower then upd a b c d (Some idx) f
    else hm.

Fixpoint map_headers (hm : header_map) (idx : nat) (headers : row) : header_map :=
  match headers with
  | [] => hm
  | h :: headers' => map_headers (map_header hm idx h) (S idx) headers'
  end.

Definition platforms : list string := ["Red"; "White"; "Blue"].
Definition mem (x : string) (xs : list string) : bool := existsb (String.eqb x) xs.

Definition some_true (o : option string) : bool :=
  match o with Some s => negb (s =? "") | None => false end.
Definition session_true (o : option Z) : bool :=
  match o with Some n => negb (n =? 0)%Z | None => false end.

(** [a or b] on optional text and on optional integers. *)
Definition or_str (a b : option string) : option string :=
  if some_true a then a else b.
Definition or_int (a b : option Z) : option Z :=
  if session_true a then a else b.

Definition _extract_entry_from_row (r : row) (hm : header_map)
    (meet_name : string) (current_date : option string)
    (current_session : option Z) : outcome (option entry) :=
  let date_i := get (date_idx hm) 0 in
  let session_i := get (session_idx hm) 1 in
  let platform_i := get (platform_idx hm) 2 in
  let weigh_i := get (weigh_idx hm) 3 in
  let time_i := get (time_idx hm) 4 in
  let weight_class_i := get (weight_class_idx hm) 7 in
  let date_str := strip (cell r date_i) in
  let session_str := strip (cell r session_i) in
  let platform := strip (cell r platform_i) in
  let weigh_time_str := strip (cell r weigh_i) in
  let start_time_str := strip (cell r time_i) in
  let weight_class := strip (cell r weight_class_i) in
  if (platform =? "") || negb (mem platform platforms) then Returned None
  else if (start_time_str =? "") || (weigh_time_str =? "") then Returned None
  else
    let parsed_date :=
      if negb (date_str =? "") && any_in month_names date_str
      then _parse_date_from_text date_str else None in
    let current_date := if some_true parsed_date then parsed_date else current_date in
    (current_session <-
       (if negb (session_str =? "") && isdigit session_str
        then (n <- int_checked session_str ;; Returned (Some n))
        else Returned current_session) ;;
     if negb (some_true current_date) || negb (session_true current_session)
     then Returned None
     else
       start_time <- _parse_time start_time_str ;;
       weigh_time <- _parse_time weigh_time_str ;;
       match start_time, weigh_time with
       | Some start_time, Some weigh_time =>
           let weight_class := clean_weight_class weight_class in
           Returned (Some
             {| date := match current_date with Some x => PStr x | None => PNone end;
                session_id := match current_session with Some n => PInt n | None => PNone end;
                start_time := PStr (strftime_HMS start_time);
                weigh_in_time := PStr (strftime_HMS weigh_time);
                Scraper.platform := PStr platform;
                Scraper.weight_class := PStr weight_class;
                meet := PStr meet_name |})
       | _, _ => Returned None
       end)%outcome.

(** The placeholder of the source: it returns [None]. *)
Definition _extract_entry_from_row_pattern (r : row) (meet_name : string)
    : outcome (option entry) := Returned None.

(** [not row or all(cell is None or str(cell).strip() == '' for cell in row)] *)
Definition blank_row (r : row) : bool :=
  forallb (fun c => strip (cell_str c) =? "") r.

(** The loop over [data_rows[:10]] that looks for the section's date. *)
Fixpoint scan_date (date_i : nat) (rows : list row) : option string :=
  match rows with
  | [] => None
  | r :: rows' =>
      if (length r <=? date_i)%nat then scan_date date_i rows'
      else
        let date_cell := strip (cell r date_i) in
        if negb (date_cell =? "") && any_in month_names date_cell
        then
          let parsed_date := _parse_date_from_text date_cell in
          if some_true parsed_date then parsed_date else scan_date date_i rows'
        else scan_date date_i rows'
  end.

Definition as_str (v : pyval) : option string :=
  match v with PStr s => Some s | _ => None end.
Definition as_int (v : pyval) : option Z :=
  match v with PInt n => Some n | _ => None end.

(** The local variables of the row loop of [_parse_with_headers]. *)
Record locals :=
  { entries : list entry; local_date : option string; local_session : option Z }.

(** The body of [for row in data_rows], with its [try ... except Exception]. *)
Definition parse_row (hm : header_map) (meet_name : string)
    (acc : locals * scraper) (r : row) : locals * scraper :=
  let (st, self) := acc in
  if blank_row r then acc
  else
    match _extract_entry_from_row r hm meet_name
            (or_str (local_date st) (self_current_date self))
            (or_int (local_session st) (self_current_session self)) with
    | Returned (Some entry) =>
        let '(local_date, self_date) :=
          if truthy (date entry)
          then (as_str (date entry), as_str (date entry))
          else (local_date st, self_current_date self) in
        let '(local_session, self_session) :=
          if truthy (session_id entry)
          then (as_int (session_id entry), as_int (session_id entry))
          else (local_session st, self_current_session self) in
        ({| entries := entries st ++ [entry]; local_date := local_date;
            local_session := local_session |},
         {| self_current_date := self_date; self_current_session := self_session |})
    | Returned None => acc
    | Raised _ => acc
    end.

Definition _parse_with_headers (self : scraper) (data_rows : list row)
    (headers : row) (meet_name : string) (date_text : option string)
    : list entry * scraper :=
  let hm := map_headers no_headers 0 headers in
  (* Try parsing date_text first (from row before header) *)
  let parsed_date :=
    if some_true date_text then _parse_date_from_text (cell_str date_text)
    else None in
  let '(local_date, self) :=
    if some_true parsed_date
    then (parsed_date,
          {| self_current_date := parsed_date;
             self_current_session := self_current_session self |})
    else (None, self) in
  (* If no date yet, scan the initial rows *)
  let '(local_date, self) :=
    if some_true local_date then (local_date, self)
    else
      let found := scan_date (get (date_idx hm) 0) (firstn 10 data_rows) in
      if some_true found
      then (found,
            {| self_current_date := found;
               self_current_session := self_current_session self |})
      else (local_date, self) in
  let '(st, self) :=
    fold_left (parse_row hm meet_name) data_rows
      ({| entries := []; local_date := local_date; local_session := None |}, self) in
  (entries st, self).

Definition _parse_without_headers (t : table) (meet_name : string) : list entry :=
  fold_left
    (fun entries r =>
       if (length r <? 4)%nat then entries
       else
         match _extract_entry_from_row_pattern r meet_name with
         | Returned (Some entry) => entries ++ [entry]
         | Returned None => entries
         | Raised _ => entries
         end)
    t [].

(** [row_text]: the cells in lower case, joined by a blank. *)
Definition row_text (r : row) : string :=
  join_sp (map (fun c => lower (cell_str c)) r).

Definition count_true (bs : list bool) : nat :=
  fold_left (fun n (b : bool) => if b then S n else n) bs 0%nat.

Definition keywords_found (text : string) : nat :=
  count_true
    [contains "sess" text; contains "date" text; contains "plat" text;
     contains "weigh" text;
     contains "weight" text && contains "category" text].

(** The test that makes a row of the table a header row. *)
Definition is_header (r : row) : bool :=
  negb (blank_row r) && (4 <=? keywords_found (row_text r))%nat.

(** [for look_back in range(1, min(4, idx + 1))]: the text of the nearest
    row above the header that names a month. *)
Fixpoint look_back_date (t : table) (idx : nat) (look_backs : list nat)
    : option string :=
  match look_backs with
  | [] => None
  | look_back :: rest =>
      match nth_error t (idx - look_back) with
      | Some (c :: cs) =>
          let prev_text := join_sp (map (fun c => strip (cell_str c)) (c :: cs)) in
          if any_in month_names prev_text then Some prev_text
          else look_back_date t idx rest
      | _ => look_back_date t idx rest
      end
  end.

Record section :=
  { header_row : row; start_idx : nat; date_text : option string }.

(** [for idx, row in enumerate(table)], from the row of index [idx]. *)
Fixpoint find_headers (t : table) (idx : nat) (rows : list row) : list section :=
  match rows with
  | [] => []
  | r :: rows' =>
      if is_header r
      then {| header_row := r; start_idx := idx + 1;
              date_text := look_back_date t idx (seq 1 (Nat.min 4 (idx + 1) - 1)) |}
           :: find_headers t (S idx) rows'
      else find_headers t (S idx) rows'
  end.

(** [table[a:b]] *)
Definition slice {A} (a b : nat) (l : list A) : list A := firstn (b - a) (skipn a l).

(** [for i, section in enumerate(header_sections)] *)
Fixpoint parse_sections (self : scraper) (t : table) (meet_name : string)
    (entries : list entry) (sections : list section) : list entry * scraper :=
  match sections with
  | [] => (entries, self)
  | sec :: rest =>
      let end_idx :=
        match rest with
        | next :: _ => (start_idx next - 1)%nat
        | [] => length t
        end in
      let data_rows := slice (start_idx sec) end_idx t in
      let (es, self) :=
        _parse_with_headers self data_rows (header_row sec) meet_name (date_text sec) in
      parse_sections self t meet_name (entries ++ es) rest
  end.

Definition header_sections (t : table) : list section := find_headers t 0 t.

Definition _parse_table (self : scraper) (t : table) (meet_name : string)
    : list entry * scraper :=
  match header_sections t with
  | [] => (_parse_without_headers t meet_name, self)
  | sections => parse_sections self t meet_name [] sections
  end.

Definition document := list (list table).

Fixpoint parse_tables (meet_name : string) (self : scraper)
    (schedule_entries : list entry) (tables : list table)
    : list entry * scraper :=
  match tables with
  | [] => (schedule_entries, self)
  | t :: tables' =>
      if (length t <? 2)%nat
      then parse_tables meet_name self schedule_entries tables'
      else
        let (es, self) := _parse_table self t meet_name in
        parse_tables meet_name self (schedule_entries ++ es) tables'
  end.

Fixpoint parse_pages (meet_name : string) (self : scraper)
    (schedule_entries : list entry) (pages : document) : list entry * scraper :=
  match pages with
  | [] => (schedule_entries, self)
  | tables :: pages' =>
      let (es, self) := parse_tables meet_name self schedule_entries tables in
      parse_pages meet_name self es pages'
  end.

(** The attributes are reset before the first page is read. *)
Definition extract_schedule_data (self : scraper) (pdf : document)
    (meet_name : string) : list entry * scraper :=
  let self := {| self_current_date := None; self_current_session := None |} in
  parse_pages meet_name self [] pdf.

Definition key_of (e : entry) : key :=
  (date e, session_id e, platform e, weight_class e).

Definition differs (existing new_entry : entry) : bool :=
  negb (pyval_eqb (start_time existing) (start_time new_entry))
  || negb (pyval_eqb (weigh_in_time existing) (weigh_in_time new_entry)).

Definition dry_run_partitions (existing_records new_entries : list entry)
    : partitions :=
  classify differs (by_key key_of existing_records) (by_key key_of new_entries).

Definition dry_run (existing_records new_entries : list entry)
    : stats * partitions :=
  let p := dry_run_partitions existing_records new_entries in
  ({| total_new := length new_entries;
      total_existing := length existing_records;
      n_to_add := length (to_add p);
      n_to_update := length (to_update p);
      n_unchanged := length (unchanged p) |}, p).

(** No deduplication here: the entries go to the store as they are. *)
Definition upsert_to_database (entries : list entry) : upsert_call :=
  match entries with
  | [] => {| sent := None; removed := None |}
  | _ => {| sent := Some entries; removed := None |}
  end.

End Prelim.

(** ** Vocabulary of the properties *)

Module Props.
Import Py Scraper.

(** The fields a reconciliation compares. *)
Definition tracked (e : entry) : pyval * pyval * pyval :=
  (date e, start_time e, weigh_in_time e).

(** The record a sequence holds for a key: the last one carrying it. *)
Definition record_of (key_of : entry -> key) (k : key) (xs : list entry)
    : option entry :=
  find (fun x => key_eqb k (key_of x)) (rev xs).

(** The keys of the three partitions, [to_add] first. *)
Definition partition_keys (key_of : entry -> key) (p : partitions) : list key :=
  map key_of (to_add p) ++ map (fun u => key_of (snd u)) (to_update p)
  ++ map key_of (unchanged p).

(** The three-way split of the new records against the old ones. *)
Definition three_way (key_of : entry -> key) (old new : list entry)
    (p : partitions) : Prop :=
  (forall n, In n (to_add p) <->
     record_of key_of (key_of n) new = Some n /\
     ~ In (key_of n) (map key_of old))
  /\ (forall o n, In (o, n) (to_update p) <->
        record_of key_of (key_of n) new = Some n /\
        record_of key_of (key_of n) old = Some o /\
        tracked o <> tracked n)
  /\ (forall n, In n (unchanged p) <->
        record_of key_of (key_of n) new = Some n /\
        exists o, record_of key_of (key_of n) old = Some o /\
                  tracked o = tracked n)
  /\ NoDup (partition_keys key_of p)
  /\ (forall k, In k (partition_keys key_of p) <-> In k (map key_of new))
  /\ (forall k, In k (map key_of old) -> ~ In k (map key_of new) ->
        ~ In k (partition_keys key_of p)).

(** A value that is there and is not the empty text. *)
Definition present_nonempty (v : pyval) : Prop := v <> PNone /\ v <> PStr "".

(** [k] occurs in [s]. *)
Definition occurs (k s : string) : Prop := exists a b, s = (a ++ k ++ b)%string.

(** The five keyword groups of the header test. *)
Inductive keyword_group := G_sess | G_date | G_plat | G_weigh | G_weight_category.

Definition group_present (text : string) (g : keyword_group) : Prop :=
  match g with
  | G_sess => occurs "sess" text
  | G_date => occurs "date" text
  | G_plat => occurs "plat" text
  | G_weigh => occurs "weigh" text
  | G_weight_category => occurs "weight" text /\ occurs "category" text
  end.

(** At least [n] distinct groups are present in [text]. *)
Definition groups_present (n : nat) (text : string) : Prop :=
  exists gs, NoDup gs /\ length gs = n /\ Forall (group_present text) gs.

(** The cells of a row in lower case, [None] read as the empty text,
    joined by single blanks. *)
Fixpoint folded_text (r : row) : string :=
  match r with
  | [] => ""
  | [c] => lower (cell_str c)
  | c :: r' => (lower (cell_str c) ++ " " ++ folded_text r')%string
  end.

(** Every cell is [None] or white space only. *)
Definition blank (r : row) : Prop :=
  Forall (fun c => all_chars is_space (cell_str c) = true) r.


(** The rule of the permissive pattern for the meridiem: 12 am is hour 0,
    pm adds 12 to an hour below 12. *)
Definition meridiem_hour (am_pm : option string) (h : Z) : Z :=
  match am_pm with
  | Some "pm" => if (h <? 12)%Z then (h + 12)%Z else h
  | Some "am" => if (h =? 12)%Z then 0%Z else h
  | _ => h
  end.

(** A time of day. *)
Definition hms (h m s : Z) : Datetime.time :=
  {| Datetime.hour := h; Datetime.minute := m; Datetime.second := s |}.

(** What one item of the new dictionary contributes to each of the three
    lists of a dry run. *)
Definition adds (old : dict entry) (kv : key * entry) : list entry :=
  match dict_get (fst kv) old with None => [snd kv] | Some _ => [] end.
Definition updates (differs : entry -> entry -> bool) (old : dict entry)
    (kv : key * entry) : list (entry * entry) :=
  match dict_get (fst kv) old with
  | Some o => if differs o (snd kv) then [(o, snd kv)] else []
  | None => []
  end.
Definition keeps (differs : entry -> entry -> bool) (old : dict entry)
    (kv : key * entry) : list entry :=
  match dict_get (fst kv) old with
  | Some o => if differs o (snd kv) then [] else [snd kv]
  | None => []
  end.

Definition all_groups : list keyword_group :=
  [G_sess; G_date; G_plat; G_weigh; G_weight_category].

Definition group_presentb (text : string) (g : keyword_group) : bool :=
  match g with
  | G_sess => contains "sess" text
  | G_date => contains "date" text
  | G_plat => contains "plat" text
  | G_weigh => contains "weigh" text
  | G_weight_category => contains "weight" text && contains "category" text
  end.

(** A row that is not blank and shows at least four of the five groups. *)
Definition header_like (r : row) : Prop :=
  ~ blank r /\ groups_present 4 (folded_text r).

(** What must follow the white space of a group suffix: a letter from A
    to E, then the end of the text. *)
Definition suffix_tail (u : string) : option (string * Re.caps) :=
  match u with
  | String x u' =>
      if range "A" "E" x
      then (if Re.at_end u' then Some (u', []) else None)
      else None
  | EmptyString => None
  end.

(** The test [is_new_session] of the positional parser on a Red row with
    a blank session cell. *)
Definition boundary (last : option string) (start_time_str : string) : bool :=
  match last with
  | Some t => negb (t =? "") && negb (start_time_str =? t)
  | None => false
  end.

(** The entries a parse returned, none when it raised. *)
Definition returned_entries {S : Type} (x : outcome (list entry) * S) : list entry :=
  match fst x with Returned es => es | Raised _ => [] end.

End Props.

(** ** Sample rows, tables and records *)

Module Samples.
Import Py Scraper.

Definition nls : string := String nl "".

(** A row of the final schedule on the Red platform, session cell blank. *)
Definition red_row (weigh start category : string) : row :=
  [None; None; Some "RED"; Some weigh; Some start; None; Some category].

Definition red_entry (d : string) (N : Z) (weigh start category meet_name : string)
    : entry :=
  {| date := PStr d; session_id := PInt N; start_time := PStr start;
     weigh_in_time := PStr weigh; platform := PStr "Red";
     weight_class := PStr category; meet := PStr meet_name |}.

Definition is_red (e : entry) : bool := pyval_eqb (platform e) (PStr "Red").

(** Session 3 is given on a White row; three Red rows follow. *)
Definition table_sessions : table :=
  [[Some ("Sat" ++ nls ++ "Jun 21")%string; Some "3"; Some "WHITE"; Some "7:00";
    Some "9:00"; None; Some "81 A"];
   red_row "7:00" "9:00" "81 B";
   red_row "7:00" "9:00" "89";
   red_row "8:00" "10:00" "96"].

(** A final-schedule table whose second row has the start time 9:75. *)
Definition table_bad_time : table :=
  [[Some ("Sat" ++ nls ++ "Jun 21")%string; Some "1"; Some "RED"; Some "7:00";
    Some "9:00"; None; Some "81"];
   [None; None; Some "WHITE"; Some "7:00"; Some "9:75"; None; Some "89"];
   [None; None; Some "BLUE"; Some "7:00"; Some "9:00"; None; Some "96"]].

(** The two well-formed rows alone. *)
Definition table_good_rows : table :=
  [[Some ("Sat" ++ nls ++ "Jun 21")%string; Some "1"; Some "RED"; Some "7:00";
    Some "9:00"; None; Some "81"];
   [None; None; Some "BLUE"; Some "7:00"; Some "9:00"; None; Some "96"]].

(** The same rows under a header, as the preliminary schedule has them. *)
Definition table_bad_time_headed : table :=
  [[Some "Saturday June 21, 2025"; None; None; None; None; None; None; None];
   [Some "Date"; Some "Session"; Some "Platform"; Some "Weigh"; Some "Start Time";
    Some "Men"; Some "Women"; Some "Weight Category"];
   [None; Some "1"; Some "Red"; Some "7:00"; Some "9:00"; None; None; Some "81"];
   [None; None; Some "White"; Some "7:00"; Some "9:75"; None; None; Some "89"];
   [None; None; Some "Blue"; Some "7:00"; Some "9:00"; None; None; Some "96"]].

(** Document A names its date; document B does not. *)
Definition doc_a : list (list table) :=
  [[[[Some ("Sat" ++ nls ++ "Jun 21")%string; Some "1"; Some "RED"; Some "7:00";
      Some "9:00"; None; Some "81"];
     [None; None; Some "BLUE"; Some "7:00"; Some "9:00"; None; Some "96"]]]].
Definition doc_b : list (list table) :=
  [[[[None; Some "1"; Some "RED"; Some "7:00"; Some "9:00"; None; Some "81"];
     [None; None; Some "BLUE"; Some "7:00"; Some "9:00"; None; Some "96"]]]].

Definition record (d : string) (n : Z) (start weigh plat cls m : string) : entry :=
  {| date := PStr d; session_id := PInt n; start_time := PStr start;
     weigh_in_time := PStr weigh; platform := PStr plat;
     weight_class := PStr cls; meet := PStr m |}.

(** Two records with one key, differing in the start time only. *)
Definition dup_first : entry :=
  record "2025-06-21" 1 "09:00:00" "07:00:00" "Red" "81" "M".
Definition dup_last : entry :=
  record "2025-06-21" 1 "09:30:00" "07:00:00" "Red" "81" "M".

(** An old set and a new set for a reconciliation. *)
Definition old_set : list entry :=
  [record "2025-06-21" 1 "10:00:00" "08:00:00" "Red" "81" "M";
   record "2025-06-21" 1 "10:00:00" "08:00:00" "White" "89" "M";
   record "2025-06-21" 9 "18:00:00" "16:00:00" "Blue" "109" "M"].
Definition new_set : list entry :=
  [record "2025-06-21" 1 "10:30:00" "08:00:00" "Red" "81" "M";
   record "2025-06-21" 1 "10:00:00" "08:00:00" "White" "89" "M";
   record "2025-06-21" 2 "12:00:00" "10:00:00" "Red" "96" "M"].

(** An entry without a platform. *)
Definition incomplete : entry :=
  {| date := PStr "2025-06-21"; session_id := PInt 1;
     start_time := PStr "09:00:00"; weigh_in_time := PStr "07:00:00";
     platform := PNone; weight_class := PStr "81"; meet := PStr "M" |}.

(** A table with no header row. *)
Definition table_headerless : table :=
  [[Some "Session 1"; Some "Red"; Some "9:00"; Some "81"];
   [Some "weigh in date"; None; None; None]].

End Samples.

(** * Properties *)

Import Py Re Datetime Strptime Scraper Props Samples.

(** ** Values and keys *)

Lemma pyval_eqb_eq (a b : pyval) : pyval_eqb a b = true <-> a = b.
Proof.
  destruct a, b; simpl; split; intro H; try discriminate; try reflexivity.
  - apply String.eqb_eq in H. now subst.
  - injection H as ->. apply String.eqb_refl.
  - apply Z.eqb_eq in H. now subst.
  - injection H as ->. apply Z.eqb_refl.
Qed.

Lemma pyval_eqb_refl (v : pyval) : pyval_eqb v v = true.
Proof. now apply pyval_eqb_eq. Qed.

Lemma key_eqb_eq (k1 k2 : key) : key_eqb k1 k2 = true <-> k1 = k2.
Proof.
  destruct k1 as [[[a1 b1] c1] d1], k2 as [[[a2 b2] c2] d2]. simpl.
  rewrite !andb_true_iff, !pyval_eqb_eq. split.
  - intros [[[-> ->] ->] ->]. reflexivity.
  - intros H. injection H as -> -> -> ->. auto.
Qed.

Lemma key_eqb_refl (k : key) : key_eqb k k = true.
Proof. now apply key_eqb_eq. Qed.

Lemma key_eqb_neq (k1 k2 : key) : key_eqb k1 k2 = false <-> k1 <> k2.
Proof.
  rewrite <- key_eqb_eq. destruct (key_eqb k1 k2); split; congruence.
Qed.

Lemma key_eq_dec (k1 k2 : key) : {k1 = k2} + {k1 <> k2}.
Proof.
  destruct (key_eqb k1 k2) eqn:E.
  - left. now apply key_eqb_eq.
  - right. now apply key_eqb_neq.
Qed.

(** ** Dictionaries *)

Section Dict.
Context {V : Type}.
Implicit Types (d : dict V) (k : key) (v : V).

Lemma dict_get_set k k' v d :
  dict_get k (dict_set k' v d) = if key_eqb k k' then Some v else dict_get k d.
Proof.
  induction d as [|[k0 v0] d IH]; simpl.
  - reflexivity.
  - destruct (key_eqb k' k0) eqn:E; simpl.
    + apply key_eqb_eq in E. subst k0.
      destruct (key_eqb k k'); reflexivity.
    + rewrite IH. destruct (key_eqb k k0) eqn:E0; [|reflexivity].
      apply key_eqb_eq in E0. subst k0.
      destruct (key_eqb k k') eqn:E1; [|reflexivity].
      apply key_eqb_eq in E1. subst k'. rewrite key_eqb_refl in E. discriminate.
Qed.

Lemma dict_get_in k d : In k (dict_keys d) <-> dict_get k d <> None.
Proof.
  induction d as [|[k0 v0] d IH]; simpl.
  - split; [tauto | congruence].
  - destruct (key_eqb k k0) eqn:E.
    + apply key_eqb_eq in E. split; [congruence | auto].
    + apply key_eqb_neq in E. rewrite <- IH.
      split; [intros [?|?]|]; auto; congruence.
Qed.

Lemma dict_keys_set k v d :
  dict_keys (dict_set k v d) =
  match dict_get k d with
  | Some _ => dict_keys d
  | None => dict_keys d ++ [k]
  end.
Proof.
  induction d as [|[k0 v0] d IH]; simpl.
  - reflexivity.
  - destruct (key_eqb k k0) eqn:E; simpl; [reflexivity|].
    unfold dict_keys in *. rewrite IH. destruct (dict_get k d); reflexivity.
Qed.

Lemma dict_set_NoDup k v d :
  NoDup (dict_keys d) -> NoDup (dict_keys (dict_set k v d)).
Proof.
  intros H. rewrite dict_keys_set. destruct (dict_get k d) eqn:E; [assumption|].
  apply NoDup_app; repeat split; auto.
  - constructor; [simpl; tauto | constructor].
  - intros x Hx [<-|[]]. apply dict_get_in in Hx. congruence.
Qed.

Lemma dict_in_get k v d :
  NoDup (dict_keys d) -> (In (k, v) d <-> dict_get k d = Some v).
Proof.
  induction d as [|[k0 v0] d IH]; simpl; intros H.
  - split; [tauto | discriminate].
  - inversion H as [|? ? Hn Hd]; subst.
    destruct (key_eqb k k0) eqn:E.
    + apply key_eqb_eq in E. subst k0. split.
      * intros [E|HI]; [congruence|].
        exfalso. apply Hn. apply (in_map fst) in HI. exact HI.
      * intros E. left. congruence.
    + apply key_eqb_neq in E. rewrite <- (IH Hd).
      split; [intros [?|?]|]; auto; congruence.
Qed.
End Dict.

(** ** Records by key *)

Lemma find_app {A} (f : A -> bool) (l1 l2 : list A) :
  find f (l1 ++ l2) = match find f l1 with Some x => Some x | None => find f l2 end.
Proof.
  induction l1 as [|a l1 IH]; simpl; [reflexivity|].
  destruct (f a); [reflexivity | exact IH].
Qed.

Section ByKey.
Variable key_of : entry -> key.

Lemma fold_set_get k xs d :
  dict_get k (fold_left (by_key_step key_of) xs d) =
  match record_of key_of k xs with
  | Some x => Some x
  | None => dict_get k d
  end.
Proof.
  revert d. induction xs as [|x xs IH]; intros d; simpl.
  - reflexivity.
  - rewrite IH. unfold record_of. simpl. rewrite find_app. simpl.
    destruct (find _ (rev xs)); [reflexivity|].
    unfold by_key_step. rewrite dict_get_set.
    destruct (key_eqb k (key_of x)); reflexivity.
Qed.

Lemma by_key_get k xs : dict_get k (by_key key_of xs) = record_of key_of k xs.
Proof.
  unfold by_key. rewrite fold_set_get. simpl.
  destruct (record_of key_of k xs); reflexivity.
Qed.

Lemma fold_set_NoDup xs d :
  NoDup (dict_keys d) -> NoDup (dict_keys (fold_left (by_key_step key_of) xs d)).
Proof.
  revert d. induction xs as [|x xs IH]; intros d H; simpl; [assumption|].
  apply IH. now apply dict_set_NoDup.
Qed.

Lemma by_key_NoDup xs : NoDup (dict_keys (by_key key_of xs)).
Proof. apply fold_set_NoDup. constructor. Qed.

Lemma record_of_key k xs x : record_of key_of k xs = Some x -> key_of x = k.
Proof.
  unfold record_of. intros H. apply find_some in H as [_ H].
  symmetry. now apply key_eqb_eq.
Qed.

Lemma record_of_in k xs x : record_of key_of k xs = Some x -> In x xs.
Proof.
  unfold record_of. intros H. apply find_some in H as [H _].
  now apply in_rev.
Qed.

Lemma record_of_none k xs :
  record_of key_of k xs = None <-> ~ In k (map key_of xs).
Proof.
  unfold record_of. split.
  - intros H HI. apply in_map_iff in HI as [x [<- HI]].
    apply in_rev in HI. apply (find_none _ _ H) in HI.
    rewrite key_eqb_refl in HI. discriminate.
  - intros H. destruct (find _ (rev xs)) eqn:E; [|reflexivity].
    apply find_some in E as [HI E]. apply key_eqb_eq in E. subst k.
    exfalso. apply H. apply in_map. now apply in_rev.
Qed.

Lemma by_key_in k x xs :
  In (k, x) (by_key key_of xs) <-> record_of key_of k xs = Some x.
Proof.
  rewrite (dict_in_get k x _ (by_key_NoDup xs)). now rewrite by_key_get.
Qed.

Lemma by_key_keys k xs :
  In k (dict_keys (by_key key_of xs)) <-> In k (map key_of xs).
Proof.
  rewrite dict_get_in, by_key_get. split.
  - intros H. destruct (in_dec key_eq_dec k (map key_of xs)) as [?|Hn];
      [assumption|].
    apply record_of_none in Hn. congruence.
  - intros H E. apply record_of_none in E. contradiction.
Qed.

Lemma by_key_values xs :
  map key_of (dict_values (by_key key_of xs)) = dict_keys (by_key key_of xs).
Proof.
  assert (H : forall k x, In (k, x) (by_key key_of xs) -> key_of x = k).
  { intros k x H. apply by_key_in in H. now apply record_of_key in H. }
  revert H. generalize (by_key key_of xs). intros d.
  induction d as [|[k x] d IH]; intros H; simpl; [reflexivity|].
  rewrite (H k x (or_introl eq_refl)). f_equal. apply IH.
  intros k' x' H'. apply H. now right.
Qed.

Lemma by_key_values_in xs e :
  In e (dict_values (by_key key_of xs)) <->
  record_of key_of (key_of e) xs = Some e.
Proof.
  unfold dict_values. rewrite in_map_iff. split.
  - intros [[k x] [E H]]. simpl in E. subst x.
    apply by_key_in in H. pose proof (record_of_key _ _ _ H). now subst k.
  - intros H. exists (key_of e, e). split; [reflexivity|]. now apply by_key_in.
Qed.
End ByKey.

(** ** The three partitions of a dry run *)

Section Classify.
Variable key_of : entry -> key.
Variable differs : entry -> entry -> bool.
Variable old : dict entry.

Lemma classify_fold new acc :
  fold_left (classify_step differs old) new acc =
  {| to_add := to_add acc ++ flat_map (adds old) new;
     to_update := to_update acc ++ flat_map (updates differs old) new;
     unchanged := unchanged acc ++ flat_map (keeps differs old) new |}.
Proof.
  revert acc. induction new as [|[k x] new IH]; intros [a u s]; simpl.
  - now rewrite !app_nil_r.
  - rewrite IH. unfold adds, updates, keeps. simpl.
    destruct (dict_get k old) as [o|]; [destruct (differs o x)|]; simpl;
      rewrite <- ?app_assoc, ?app_nil_r; reflexivity.
Qed.

Lemma classify_lists new :
  let p := classify differs old new in
  to_add p = flat_map (adds old) new
  /\ to_update p = flat_map (updates differs old) new
  /\ unchanged p = flat_map (keeps differs old) new.
Proof. unfold classify. rewrite classify_fold. simpl. auto. Qed.

Lemma in_adds new n :
  In n (flat_map (adds old) new) <->
  exists k, In (k, n) new /\ dict_get k old = None.
Proof.
  rewrite in_flat_map. unfold adds. split.
  - intros [[k x] [HI H]]. simpl in H.
    destruct (dict_get k old) eqn:E; [destruct H|].
    destruct H as [<-|[]]. eauto.
  - intros [k [HI E]]. exists (k, n). simpl. rewrite E. simpl. auto.
Qed.

Lemma in_updates new o n :
  In (o, n) (flat_map (updates differs old) new) <->
  exists k, In (k, n) new /\ dict_get k old = Some o /\ differs o n = true.
Proof.
  rewrite in_flat_map. unfold updates. split.
  - intros [[k x] [HI H]]. simpl in H.
    destruct (dict_get k old) as [o'|] eqn:E; [|destruct H].
    destruct (differs o' x) eqn:D; [|destruct H].
    destruct H as [H|[]]. injection H as <- <-. eauto.
  - intros [k [HI [E D]]]. exists (k, n). simpl. rewrite E, D. simpl. auto.
Qed.

Lemma in_keeps new n :
  In n (flat_map (keeps differs old) new) <->
  exists k o, In (k, n) new /\ dict_get k old = Some o /\ differs o n = false.
Proof.
  rewrite in_flat_map. unfold keeps. split.
  - intros [[k x] [HI H]]. simpl in H.
    destruct (dict_get k old) as [o'|] eqn:E; [|destruct H].
    destruct (differs o' x) eqn:D; [destruct H|].
    destruct H as [<-|[]]. eauto.
  - intros [k [o [HI [E D]]]]. exists (k, n). simpl. rewrite E, D. simpl. auto.
Qed.

(** Each item lands in exactly one list, under its own key. *)
Lemma classify_keys new :
  (forall k x, In (k, x) new -> key_of x = k) ->
  Permutation
    (map key_of (flat_map (adds old) new)
     ++ map (fun u => key_of (snd u)) (flat_map (updates differs old) new)
     ++ map key_of (flat_map (keeps differs old) new))
    (dict_keys new).
Proof.
  induction new as [|[k x] new IH]; intros Hk; simpl.
  - constructor.
  - assert (Hx : key_of x = k) by (apply Hk; now left).
    assert (IH' := IH (fun k' x' H => Hk k' x' (or_intror H))). clear IH.
    unfold adds at 1, updates at 1, keeps at 1. simpl.
    destruct (dict_get k old) as [o|]; [destruct (differs o x)|]; simpl;
      rewrite ?Hx.
    + apply Permutation_sym, Permutation_cons_app, Permutation_sym, IH'.
    + rewrite app_assoc. apply Permutation_sym, Permutation_cons_app.
      rewrite <- app_assoc. apply Permutation_sym, IH'.
    + constructor. exact IH'.
Qed.
End Classify.

Lemma tracked_dec (o n : entry) : {tracked o = tracked n} + {tracked o <> tracked n}.
Proof.
  unfold tracked.
  destruct (pyval_eqb (date o) (date n)) eqn:E1;
  destruct (pyval_eqb (start_time o) (start_time n)) eqn:E2;
  destruct (pyval_eqb (weigh_in_time o) (weigh_in_time n)) eqn:E3;
  try (apply pyval_eqb_eq in E1, E2, E3; left; congruence);
  right; intros H; injection H as H1 H2 H3;
  apply pyval_eqb_eq in H1, H2, H3; congruence.
Qed.

Section ThreeWay.
Variable key_of : entry -> key.
Variable differs : entry -> entry -> bool.
Variables old new : list entry.

(** On the records compared, the test of the code is the comparison of
    the tracked fields. *)
Hypothesis differs_tracked :
  forall o n, record_of key_of (key_of n) old = Some o ->
              (differs o n = true <-> tracked o <> tracked n).

Lemma classify_three_way :
  three_way key_of old new
    (classify differs (by_key key_of old) (by_key key_of new)).
Proof.
  destruct (classify_lists differs (by_key key_of old) (by_key key_of new))
    as [Ea [Eu Es]].
  unfold three_way, partition_keys. rewrite Ea, Eu, Es. clear Ea Eu Es.
  assert (HP := classify_keys key_of differs (by_key key_of old)
                  (by_key key_of new)
                  (fun k x H => record_of_key key_of k new x
                                  (proj1 (by_key_in key_of k x new) H))).
  split; [|split; [|split; [|split; [|split]]]].
  - intros n. rewrite in_adds. split.
    + intros [k [HI E]].
      apply by_key_in in HI. rewrite by_key_get in E.
      pose proof (record_of_key _ _ _ _ HI). subst k. split; [assumption|].
      now apply record_of_none.
    + intros [HI E]. exists (key_of n).
      rewrite by_key_in, by_key_get. split; [assumption|].
      now apply record_of_none.
  - intros o n. rewrite in_updates. split.
    + intros [k [HI [E D]]].
      apply by_key_in in HI. pose proof (record_of_key _ _ _ _ HI). subst k.
      rewrite by_key_get in E. repeat split; auto. now apply differs_tracked.
    + intros [HI [E D]]. exists (key_of n).
      rewrite by_key_in, by_key_get. repeat split; auto.
      now apply differs_tracked.
  - intros n. rewrite in_keeps. split.
    + intros [k [o [HI [E D]]]].
      apply by_key_in in HI. pose proof (record_of_key _ _ _ _ HI). subst k.
      rewrite by_key_get in E. split; [assumption|].
      exists o. split; [assumption|].
      destruct (tracked_dec o n) as [?|Hn]; [assumption|].
      apply differs_tracked in Hn; [congruence | assumption].
    + intros [HI [o [E T]]]. exists (key_of n), o.
      rewrite by_key_in, by_key_get. repeat split; auto.
      destruct (differs o n) eqn:D; [|reflexivity].
      apply differs_tracked in D; [contradiction | assumption].
  - apply (Permutation_NoDup (Permutation_sym HP)). apply by_key_NoDup.
  - intros k. split.
    + intros H. apply (Permutation_in _ HP) in H. now apply by_key_keys in H.
    + intros H. apply (Permutation_in _ (Permutation_sym HP)).
      now apply by_key_keys.
  - intros k Ho Hn H. apply Hn.
    apply (Permutation_in _ HP) in H. now apply by_key_keys in H.
Qed.
End ThreeWay.

Lemma final_differs_tracked (o n : entry) :
  (exists s, date o = PStr s) ->
  (Final.differs o n = true <-> tracked o <> tracked n).
Proof.
  intros [s Hs]. unfold Final.differs, tracked. rewrite Hs. simpl str. split.
  - intros H E. injection E as E1 E2 E3.
    rewrite <- E1, E2, E3, !pyval_eqb_refl in H. discriminate.
  - intros H.
    destruct (pyval_eqb (PStr s) (date n)) eqn:E1; [|reflexivity].
    destruct (pyval_eqb (start_time o) (start_time n)) eqn:E2; [|reflexivity].
    destruct (pyval_eqb (weigh_in_time o) (weigh_in_time n)) eqn:E3; [|reflexivity].
    apply pyval_eqb_eq in E1, E2, E3. exfalso. apply H. congruence.
Qed.

Lemma prelim_differs_tracked (o n : entry) :
  Prelim.key_of o = Prelim.key_of n ->
  (Prelim.differs o n = true <-> tracked o <> tracked n).
Proof.
  intros K. unfold Prelim.key_of in K. injection K as Kd _ _ _.
  unfold Prelim.differs, tracked. rewrite Kd. split.
  - intros H E. injection E as E2 E3.
    rewrite E2, E3, !pyval_eqb_refl in H. discriminate.
  - intros H.
    destruct (pyval_eqb (start_time o) (start_time n)) eqn:E2; [|reflexivity].
    destruct (pyval_eqb (weigh_in_time o) (weigh_in_time n)) eqn:E3; [|reflexivity].
    apply pyval_eqb_eq in E2, E3. exfalso. apply H. congruence.
Qed.

(** C1.  A dry run splits the new records three ways against the old ones.
    A record is in [to_add] exactly when it is the record the new set
    holds for its key and the old set has no such key; a pair is in
    [to_update] exactly when it is the old and the new record of one key
    and they differ on date, start_time or weigh_in_time; a record is in
    [unchanged] exactly when the old record of its key agrees with it on
    those three fields.  The keys of the three lists are pairwise
    distinct and are exactly the keys of the new set, so a key of the old
    set alone is in none of them.  This holds for the final scraper (key:
    meet, session, platform, weight class), whose date test reads the old
    date through [str], when the old records carry their date as text,
    and for the preliminary scraper (key: date, session, platform, weight
    class). *)
Theorem reconciliation_three_way (existing_records new_entries : list entry) :
  (Forall (fun r => exists s, date r = PStr s) existing_records ->
   three_way Final.key_of existing_records new_entries
     (Final.dry_run_partitions existing_records new_entries))
  /\ three_way Prelim.key_of existing_records new_entries
       (Prelim.dry_run_partitions existing_records new_entries).
Proof.
  split.
  - intros H. apply classify_three_way. intros o n R.
    apply final_differs_tracked.
    apply record_of_in in R. rewrite Forall_forall in H. now apply H.
  - apply classify_three_way. intros o n R.
    apply prelim_differs_tracked. now apply record_of_key in R.
Qed.

Lemma reconciliation_three_way_witness :
  Forall (fun r => exists s, date r = PStr s) old_set
  /\ three_way Final.key_of old_set new_set
       (Final.dry_run_partitions old_set new_set).
Proof.
  assert (H : Forall (fun r => exists s, date r = PStr s) old_set)
    by (repeat constructor; eexists; reflexivity).
  split; [exact H | exact (proj1 (reconciliation_three_way old_set new_set) H)].
Defined.

(** The sample sets: a changed start time, an identical record, a new key. *)
Example dry_run_sample :
  Final.dry_run_partitions old_set new_set =
  {| to_add := [record "2025-06-21" 2 "12:00:00" "10:00:00" "Red" "96" "M"];
     to_update :=
       [(record "2025-06-21" 1 "10:00:00" "08:00:00" "Red" "81" "M",
         record "2025-06-21" 1 "10:30:00" "08:00:00" "Red" "81" "M")];
     unchanged := [record "2025-06-21" 1 "10:00:00" "08:00:00" "White" "89" "M"] |}
  /\ Prelim.dry_run_partitions old_set new_set =
     Final.dry_run_partitions old_set new_set
  /\ Final.dry_run old_set new_set =
     {| total_new := 3; total_existing := 3; n_to_add := 1; n_to_update := 1;
        n_unchanged := 1 |}.
Proof. repeat split; vm_compute; reflexivity. Qed.

(** ** Record normalization *)

Lemma formatted_entry_id (e : entry) : formatted_entry e = e.
Proof. now destruct e. Qed.

Lemma format_fold (entries acc : list entry) :
  fold_left format_step entries acc =
  acc ++ filter (fun e => forallb truthy (values e)) entries.
Proof.
  revert acc. induction entries as [|e entries IH]; intros acc.
  - simpl. now rewrite app_nil_r.
  - cbn [fold_left filter]. rewrite IH. unfold format_step.
    rewrite formatted_entry_id.
    destruct (forallb truthy (values e)); [|reflexivity].
    now rewrite <- app_assoc.
Qed.

Lemma format_for_database_filter (entries : list entry) :
  format_for_database entries = filter (fun e => forallb truthy (values e)) entries.
Proof. apply (format_fold entries []). Qed.

Lemma truthy_present (v : pyval) : truthy v = true -> present_nonempty v.
Proof.
  destruct v as [|s|z]; simpl; intros H; split; try discriminate.
  intros E. injection E as ->. discriminate.
Qed.

(** C3.  Every record [format_for_database] returns is one of the entries
    it was given and has each of its seven values (date, session_id,
    start_time, weigh_in_time, platform, weight_class, meet) present and
    not empty; an entry with a missing or an empty value is not
    returned.  The batch either scraper then hands to the store is made
    of such records only. *)
Theorem format_for_database_complete (entries : list entry) :
  (forall e, In e (format_for_database entries) ->
     In e entries /\ Forall present_nonempty (values e))
  /\ (forall e, Exists (fun v => v = PNone \/ v = PStr "") (values e) ->
        ~ In e (format_for_database entries))
  /\ (forall batch e,
        sent (Final.upsert_to_database (format_for_database entries)) = Some batch
        \/ sent (Prelim.upsert_to_database (format_for_database entries)) = Some batch ->
        In e batch -> Forall present_nonempty (values e)).
Proof.
  assert (H : forall e, In e (format_for_database entries) ->
                        In e entries /\ Forall present_nonempty (values e)).
  { rewrite format_for_database_filter.
    intros e He. apply filter_In in He as [He Ht]. split; [assumption|].
    rewrite forallb_forall in Ht. apply Forall_forall.
    intros v Hv. apply truthy_present. now apply Ht. }
  split; [exact H|]. split.
  - intros e Hm He. apply H in He as [_ Hp].
    apply Exists_exists in Hm as [v [Hv Hm]].
    rewrite Forall_forall in Hp. destruct (Hp v Hv) as [H1 H2].
    destruct Hm; contradiction.
  - intros batch e Hsent He. apply H.
    destruct (format_for_database entries) as [|e0 es] eqn:E;
      [destruct Hsent; discriminate|].
    destruct Hsent as [Hs|Hs].
    + unfold Final.upsert_to_database in Hs. cbv beta iota in Hs.
      cbn [sent] in Hs. injection Hs as <-.
      apply by_key_values_in in He. now apply record_of_in in He.
    + unfold Prelim.upsert_to_database in Hs. cbn [sent] in Hs.
      now injection Hs as <-.
Qed.

Lemma format_for_database_complete_witness :
  In dup_first (format_for_database [incomplete; dup_first])
  /\ Forall present_nonempty (values dup_first)
  /\ Exists (fun v => v = PNone \/ v = PStr "") (values incomplete)
  /\ ~ In incomplete (format_for_database [incomplete; dup_first]).
Proof.
  assert (H1 : In dup_first (format_for_database [incomplete; dup_first]))
    by (vm_compute; auto).
  assert (H2 : Exists (fun v => v = PNone \/ v = PStr "") (values incomplete))
    by (unfold values, incomplete; simpl; do 4 apply Exists_cons_tl;
        apply Exists_cons_hd; now left).
  destruct (format_for_database_complete [incomplete; dup_first]) as [Ha [Hb _]].
  split; [exact H1|]. split; [exact (proj2 (Ha dup_first H1))|].
  split; [exact H2 | exact (Hb incomplete H2)].
Defined.

(** ** Deduplication before the upsert *)

(** The final scraper sends one record per key, the last one seen, and
    reports how many records it removed. *)
Lemma final_upsert_deduplicates (entries : list entry) :
  entries <> [] ->
  exists batch,
    sent (Final.upsert_to_database entries) = Some batch
    /\ NoDup (map Final.key_of batch)
    /\ (forall k, In k (map Final.key_of batch) <-> In k (map Final.key_of entries))
    /\ (forall e, In e batch <->
                  record_of Final.key_of (Final.key_of e) entries = Some e)
    /\ removed (Final.upsert_to_database entries) =
         if (length batch <? length entries)%nat
         then Some (length entries - length batch)%nat else None.
Proof.
  intros Hne. exists (dict_values (by_key Final.key_of entries)).
  destruct entries as [|e0 es]; [congruence|].
  unfold Final.upsert_to_database. cbv beta iota. cbn [sent removed].
  split; [reflexivity|]. rewrite by_key_values.
  split; [apply by_key_NoDup|].
  split; [intros k; apply by_key_keys|].
  split; [intros e; apply by_key_values_in | reflexivity].
Qed.

(** The preliminary scraper sends what it was given. *)
Lemma prelim_upsert_sends_input (entries : list entry) :
  entries <> [] ->
  Prelim.upsert_to_database entries = {| sent := Some entries; removed := None |}.
Proof. destruct entries; [congruence | reflexivity]. Qed.

(** C4.  Two records share the key (date, session, platform, weight
    class) and differ in the start time.  The preliminary scraper hands
    both to the store and reports nothing, where the claim asks for one
    record per key; the final scraper, on the same input, sends the later
    record alone and reports one removal. *)
Theorem prelim_upsert_keeps_duplicates :
  Prelim.key_of dup_first = Prelim.key_of dup_last
  /\ dup_first <> dup_last
  /\ Prelim.upsert_to_database [dup_first; dup_last] =
     {| sent := Some [dup_first; dup_last]; removed := None |}
  /\ Final.upsert_to_database [dup_first; dup_last] =
     {| sent := Some [dup_last]; removed := Some 1%nat |}.
Proof.
  split; [reflexivity|]. split; [discriminate|].
  split; vm_compute; reflexivity.
Qed.

(** ** Time normalization *)

Lemma first_format_spec (formats : list string) (s : string) (dt : datetime) :
  first_format formats s = Some dt <->
  exists before fmt after,
    formats = before ++ fmt :: after
    /\ Forall (fun f => strptime s f = Raised ValueError) before
    /\ strptime s fmt = Returned dt.
Proof.
  induction formats as [|f formats IH]; simpl.
  - split; [discriminate|].
    intros [before [fmt [after [Hf _]]]]. destruct before; discriminate.
  - destruct (strptime s f) as [x|[]] eqn:E.
    + split.
      * intros H. injection H as ->. exists [], f, formats. auto.
      * intros [before [fmt [after [Hf [Hb Hr]]]]].
        destruct before as [|f' before]; simpl in Hf; injection Hf as <- Hf.
        -- congruence.
        -- inversion Hb; congruence.
    + rewrite IH. split.
      * intros [before [fmt [after [Hf [Hb Hr]]]]].
        exists (f :: before), fmt, after. subst formats. auto.
      * intros [before [fmt [after [Hf [Hb Hr]]]]].
        destruct before as [|f' before]; simpl in Hf; injection Hf as <- Hf.
        -- congruence.
        -- inversion Hb; subst. exists before, fmt, after. auto.
Qed.

Lemma first_format_none (formats : list string) (s : string) :
  first_format formats s = None <->
  Forall (fun f => strptime s f = Raised ValueError) formats.
Proof.
  induction formats as [|f formats IH]; simpl.
  - split; auto.
  - destruct (strptime s f) as [x|[]] eqn:E.
    + split; [discriminate | intros H; inversion H; congruence].
    + rewrite IH. split; [auto | intros H; now inversion H].
Qed.

(** C5.  The claim asks that [_parse_time] never raise.  On the text 9:75
    the four [strptime] formats fail, the permissive pattern finds hour 9
    and minute 75, and the constructor of the time raises [ValueError],
    which nothing catches. *)
Theorem parse_time_raises_on_minute_75 :
  Forall (fun f => strptime "9:75" f = Raised ValueError) time_formats
  /\ search time_re (lower "9:75") = Some [("2", "75"); ("1", "9")]
  /\ datetime_time 9 75 = Raised ValueError
  /\ _parse_time "9:75" = Raised ValueError.
Proof.
  split; [repeat constructor; vm_compute; reflexivity|].
  repeat split; vm_compute; reflexivity.
Qed.

(** C6.  The formats are tried in the order 24-hour with seconds, 24-hour,
    12-hour with a blank before the meridiem, 12-hour without; the first
    one [strptime] accepts gives the result.  When all four fail the
    permissive pattern is searched in the text in lower case, with the
    meridiem rule applied to its hour; when it does not match either the
    result is [None], not a default time.  12:00 AM is hour 0, 12:00 PM
    is hour 12 and 1:15 PM is hour 13. *)
Theorem parse_time_first_format_wins :
  time_formats = ["%H:%M:%S"; "%H:%M"; "%I:%M %p"; "%I:%M%p"]
  /\ (forall s before fmt after dt,
        s <> "" ->
        time_formats = before ++ fmt :: after ->
        Forall (fun f => strptime (strip s) f = Raised ValueError) before ->
        strptime (strip s) fmt = Returned dt ->
        _parse_time s = Returned (Some (time_of dt)))
  /\ (forall s m,
        s <> "" ->
        Forall (fun f => strptime (strip s) f = Raised ValueError) time_formats ->
        search time_re (lower (strip s)) = Some m ->
        _parse_time s =
        (t <- datetime_time
                (meridiem_hour (group "3" m) (int (group_text "1" m)))
                (int (group_text "2" m)) ;;
         Returned (Some t))%outcome)
  /\ (forall s,
        Forall (fun f => strptime (strip s) f = Raised ValueError) time_formats ->
        search time_re (lower (strip s)) = None ->
        _parse_time s = Returned None)
  /\ _parse_time "12:00 AM" = Returned (Some (hms 0 0 0))
  /\ _parse_time "12:00 PM" = Returned (Some (hms 12 0 0))
  /\ _parse_time "1:15 PM" = Returned (Some (hms 13 15 0))
  /\ _parse_time "09:30:15" = Returned (Some (hms 9 30 15))
  /\ _parse_time "1:15pm" = Returned (Some (hms 13 15 0))
  /\ _parse_time "from 7:45 PM on" = Returned (Some (hms 19 45 0))
  /\ _parse_time "12:05 am." = Returned (Some (hms 0 5 0))
  /\ _parse_time "noon" = Returned None.
Proof.
  split; [reflexivity|].
  split.
  { intros s before fmt after dt Hs Hf Hb Hr. unfold _parse_time.
    destruct (String.eqb_spec s ""); [contradiction|].
    assert (H : first_format time_formats (strip s) = Some dt)
      by (apply first_format_spec; eauto 6).
    now rewrite H. }
  split.
  { intros s m Hs Hall Hm. unfold _parse_time.
    destruct (String.eqb_spec s ""); [contradiction|].
    apply first_format_none in Hall. rewrite Hall, Hm. reflexivity. }
  split.
  { intros s Hall Hm. unfold _parse_time.
    destruct (s =? ""); [reflexivity|].
    apply first_format_none in Hall. now rewrite Hall, Hm. }
  repeat split; vm_compute; reflexivity.
Qed.

Lemma parse_time_first_format_wins_witness :
  Forall (fun f => strptime (strip "1:15 PM") f = Raised ValueError)
    ["%H:%M:%S"; "%H:%M"]
  /\ strptime (strip "1:15 PM") "%I:%M %p" =
     Returned {| year := 1900; month := 1; day := 1; dt_hour := 13;
                 dt_minute := 15; dt_second := 0 |}
  /\ _parse_time "1:15 PM" = Returned (Some (hms 13 15 0)).
Proof.
  assert (H1 : Forall (fun f => strptime (strip "1:15 PM") f = Raised ValueError)
                 ["%H:%M:%S"; "%H:%M"])
    by (repeat constructor; vm_compute; reflexivity).
  assert (H2 : strptime (strip "1:15 PM") "%I:%M %p" =
               Returned {| year := 1900; month := 1; day := 1; dt_hour := 13;
                           dt_minute := 15; dt_second := 0 |})
    by (vm_compute; reflexivity).
  split; [exact H1|]. split; [exact H2|].
  refine (proj1 (proj2 parse_time_first_format_wins) "1:15 PM"
            ["%H:%M:%S"; "%H:%M"] "%I:%M %p" ["%I:%M%p"] _ _ _ H1 H2);
    [discriminate | reflexivity].
Defined.

(** ** Session boundaries in the positional parser *)

(** A Red row with a blank session cell and no date text is emitted under
    the running session; the counter moves on after it when its start
    time differs from the last Red start time. *)
Lemma parse_row_red (meet_name : string) (self : Final.scraper)
    (st : Final.locals) (r : row) (w s d : string) (tw ts : time) (N : Z) :
  (7 <= length r)%nat ->
  any_in Final.month_abbrs (strip (cell r 0)) = false ->
  strip (cell r 1) = "" ->
  strip (cell r 2) = "RED" ->
  strip (cell r 3) = w -> w <> "" ->
  strip (cell r 4) = s -> s <> "" ->
  _parse_time w = Returned (Some tw) ->
  _parse_time s = Returned (Some ts) ->
  Final.current_session st = Some N -> N <> 0%Z ->
  Final.current_date st = Some d -> d <> "" ->
  Final.parse_row meet_name self st r =
  (Returned
     {| Final.entries :=
          Final.entries st ++
          [{| date := PStr d; session_id := PInt N;
              start_time := PStr (strftime_HMS ts);
              weigh_in_time := PStr (strftime_HMS tw);
              platform := PStr "Red";
              weight_class := PStr (clean_weight_class (strip (cell r 6)));
              meet := PStr meet_name |}];
        Final.current_session :=
          Some (if boundary (Final.last_start_time st) s then N + 1 else N)%Z;
        Final.current_date := Some d;
        Final.last_start_time := Some s |}, self).
Proof.
  intros Hlen Hdate Hsess Hplat Hw Hwne Hs Hsne Hpw Hps Hcs HN Hcd Hd.
  unfold Final.parse_row.
  apply Nat.ltb_ge in Hlen. rewrite Hlen.
  cbv zeta. rewrite Hdate, Hsess, Hplat, Hw, Hs, Hcs, Hcd.
  rewrite andb_false_r. cbn [Final.some_true].
  apply String.eqb_neq in Hwne, Hsne, Hd. apply Z.eqb_neq in HN.
  cbn [String.eqb Ascii.eqb Bool.eqb negb andb orb isdigit Final.session_true
       Final.some_true Final.mem existsb Final.platforms].
  rewrite Hwne, Hsne, Hd, HN. cbn [negb andb orb obind].
  rewrite Hps, Hpw. cbn [obind].
  unfold boundary.
  destruct (Final.last_start_time st) as [t|];
    cbn [option_map Final.int_or_none Final.str_or_none capitalize];
    [destruct (negb (t =? "") && negb (s =? t))|]; reflexivity.
Qed.

(** C2, amended.  The running session is [N] and no Red start time is
    recorded yet, as after an explicit session number.  Red rows with
    blank session cells and the start times 9:00, 9:00, 10:00 are all
    emitted with session [N]: the row whose start time differs from the
    last Red start time is still attributed to the running session, and
    the counter becomes [N + 1] only after it, so that the Red row that
    follows is emitted with [N + 1]. *)
Theorem boundary_row_keeps_running_session
    (meet_name : string) (self : Final.scraper) (st : Final.locals)
    (N : Z) (d : string) :
  Final.current_session st = Some N -> (0 < N)%Z ->
  Final.current_date st = Some d -> d <> "" ->
  Final.last_start_time st = None ->
  Final.parse_rows meet_name self st
    [red_row "7:00" "9:00" "81"; red_row "7:00" "9:00" "89";
     red_row "8:00" "10:00" "96"; red_row "8:00" "10:00" "102"] =
  (Returned
     {| Final.entries :=
          Final.entries st ++
          [red_entry d N "07:00:00" "09:00:00" "81" meet_name;
           red_entry d N "07:00:00" "09:00:00" "89" meet_name;
           red_entry d N "08:00:00" "10:00:00" "96" meet_name;
           red_entry d (N + 1) "08:00:00" "10:00:00" "102" meet_name];
        Final.current_session := Some (N + 1)%Z;
        Final.current_date := Some d;
        Final.last_start_time := Some "10:00" |}, self).
Proof.
  intros Hcs HN Hcd Hd Hlast.
  cbn [Final.parse_rows].
  erewrite (parse_row_red meet_name self st _ "7:00" "9:00" d);
    [|try reflexivity; try discriminate; try eassumption; cbn; lia ..].
  rewrite Hlast. cbn [boundary].
  erewrite (parse_row_red meet_name self _ _ "7:00" "9:00" d);
    [|try reflexivity; try discriminate; try eassumption; cbn; lia ..].
  cbn [boundary Final.last_start_time String.eqb Ascii.eqb Bool.eqb negb andb].
  erewrite (parse_row_red meet_name self _ _ "8:00" "10:00" d);
    [|try reflexivity; try discriminate; try eassumption; cbn; lia ..].
  cbn [boundary Final.last_start_time String.eqb Ascii.eqb Bool.eqb negb andb].
  erewrite (parse_row_red meet_name self _ _ "8:00" "10:00" d);
    [|try reflexivity; try discriminate; try eassumption; cbn; lia ..].
  cbn [boundary Final.last_start_time String.eqb Ascii.eqb Bool.eqb negb andb
       Final.entries].
  rewrite <- !app_assoc. reflexivity.
Qed.

Lemma boundary_row_keeps_running_session_witness :
  Final.parse_rows "M" Final.init
    {| Final.entries := []; Final.current_session := Some 3%Z;
       Final.current_date := Some "2025-06-21"; Final.last_start_time := None |}
    [red_row "7:00" "9:00" "81"; red_row "7:00" "9:00" "89";
     red_row "8:00" "10:00" "96"; red_row "8:00" "10:00" "102"] =
  (Returned
     {| Final.entries :=
          [red_entry "2025-06-21" 3 "07:00:00" "09:00:00" "81" "M";
           red_entry "2025-06-21" 3 "07:00:00" "09:00:00" "89" "M";
           red_entry "2025-06-21" 3 "08:00:00" "10:00:00" "96" "M";
           red_entry "2025-06-21" 4 "08:00:00" "10:00:00" "102" "M"];
        Final.current_session := Some 4%Z;
        Final.current_date := Some "2025-06-21";
        Final.last_start_time := Some "10:00" |}, Final.init).
Proof.
  apply (boundary_row_keeps_running_session "M" Final.init
           {| Final.entries := []; Final.current_session := Some 3%Z;
              Final.current_date := Some "2025-06-21";
              Final.last_start_time := None |}
           3%Z "2025-06-21");
    [reflexivity | lia | reflexivity | discriminate | reflexivity].
Defined.

(** C2 as stated fails.  In a table that gives session 3 on a White row
    and then has three Red rows with blank session cells and the start
    times 9:00, 9:00, 10:00, the three Red records carry the sessions 3,
    3, 3, which is not [N], [N], [N + 1] for any [N]. *)
Lemma third_red_row_not_incremented :
  let red :=
    filter is_red (returned_entries (Final._parse_table Final.init table_sessions "M")) in
  map start_time red = [PStr "09:00:00"; PStr "09:00:00"; PStr "10:00:00"]
  /\ map session_id red = [PInt 3; PInt 3; PInt 3]
  /\ ~ (exists N, map session_id red = [PInt N; PInt N; PInt (N + 1)]).
Proof.
  set (red := filter is_red
                (returned_entries (Final._parse_table Final.init table_sessions "M"))).
  assert (Hs : map session_id red = [PInt 3; PInt 3; PInt 3])
    by (vm_compute; reflexivity).
  cbv zeta. split; [vm_compute; reflexivity|]. split; [exact Hs|].
  rewrite Hs. intros [N H]. injection H as H1 H2 H3. lia.
Qed.

(** ** A malformed row *)

(** C9.  The second row of the table has the start time 9:75; the rows
    around it are well formed and, without it, yield two records.  The
    positional parser of the final
    scraper raises [ValueError] on that row and returns no record of the
    table, and the document parse raises with it, where the claim asks
    that the row be skipped and the other rows yield their records.  The
    header-driven parser of the preliminary scraper skips the row and
    returns the records of the two other rows. *)
Theorem final_bad_time_aborts_table :
  fst (Final._parse_table Final.init table_good_rows "M")
  = Returned [record "2025-06-21" 1 "09:00:00" "07:00:00" "Red" "81" "M";
              record "2025-06-21" 1 "09:00:00" "07:00:00" "Blue" "96" "M"]
  /\ fst (Final._parse_table Final.init table_bad_time "M") = Raised ValueError
  /\ fst (Final.extract_schedule_data Final.init [[table_bad_time]] "M")
     = Raised ValueError
  /\ fst (Prelim._parse_table
            {| Prelim.self_current_date := None;
               Prelim.self_current_session := None |}
            table_bad_time_headed "M")
     = [record "2025-06-21" 1 "09:00:00" "07:00:00" "Red" "81" "M";
        record "2025-06-21" 1 "09:00:00" "07:00:00" "Blue" "96" "M"].
Proof. repeat split; vm_compute; reflexivity. Qed.

(** ** State carried from one document to the next *)

(** The preliminary scraper resets its attributes: what it extracts does
    not depend on what the instance parsed before. *)
Lemma prelim_extract_fresh (self1 self2 : Prelim.scraper)
    (pdf : Prelim.document) (meet_name : string) :
  Prelim.extract_schedule_data self1 pdf meet_name =
  Prelim.extract_schedule_data self2 pdf meet_name.
Proof. reflexivity. Qed.

(** C10.  Document B has no date text.  Parsed on a fresh instance of the
    final scraper it yields no record; parsed on an instance that has
    parsed document A before, it yields two records dated from A, where
    the claim asks for the same records in both cases.
    [FinalScheduleScraper.extract_schedule_data] does not reset
    [self.current_date]. *)
Theorem final_date_leaks_into_next_document :
  fst (Final.extract_schedule_data Final.init doc_b "B") = Returned []
  /\ snd (Final.extract_schedule_data Final.init doc_a "A")
     = {| Final.self_current_date := Some "2025-06-21" |}
  /\ fst (Final.extract_schedule_data
            (snd (Final.extract_schedule_data Final.init doc_a "A")) doc_b "B")
     = Returned [record "2025-06-21" 1 "09:00:00" "07:00:00" "Red" "81" "B";
                 record "2025-06-21" 1 "09:00:00" "07:00:00" "Blue" "96" "B"].
Proof. repeat split; vm_compute; reflexivity. Qed.

(** ** Text *)




Lemma prefix_app (k s : string) :
  prefix k s = true <-> exists b, s = (k ++ b)%string.
Proof.
  revert s. induction k as [|c k IH]; intros s.
  - split; [intros _; now exists s | intros _; destruct s; reflexivity].
  - destruct s as [|x s]; simpl.
    + split; [discriminate | intros [b H]; discriminate].
    + destruct (ascii_dec c x) as [->|Hne].
      * rewrite IH. split; intros [b H]; exists b; congruence.
      * split; [discriminate | intros [b H]; congruence].
Qed.

Lemma contains_occurs (k s : string) : contains k s = true <-> occurs k s.
Proof.
  unfold occurs. induction s as [|x s IH].
  - cbn [contains]. rewrite orb_false_r, prefix_app. split.
    + intros [b H]. now exists "", b.
    + intros [a [b H]]. destruct a; [now exists b|discriminate].
  - cbn [contains]. rewrite orb_true_iff, prefix_app, IH. split.
    + intros [[b H]|[a [b H]]].
      * now exists "", b.
      * exists (String x a), b. simpl. congruence.
    + intros [[|y a] [b H]].
      * left. now exists b.
      * right. exists a, b. simpl in H. congruence.
Qed.

Lemma lstrip_empty (s : string) : lstrip s = "" <-> all_chars is_space s = true.
Proof.
  induction s as [|c s IH]; simpl; [tauto|].
  destruct (is_space c); simpl; [exact IH | split; discriminate].
Qed.

Lemma rstrip_empty (s : string) : rstrip s = "" <-> all_chars is_space s = true.
Proof.
  induction s as [|c s IH]; simpl; [tauto|].
  destruct (rstrip s) eqn:E.
  - destruct (is_space c); simpl; [tauto | split; discriminate].
  - rewrite andb_true_iff. split; [discriminate|].
    intros [_ H]. apply IH in H. discriminate.
Qed.

Lemma lstrip_spaces (s : string) :
  all_chars is_space (lstrip s) = true -> all_chars is_space s = true.
Proof.
  induction s as [|c s IH]; simpl; [auto|].
  destruct (is_space c) eqn:E; simpl; [exact IH|].
  rewrite E. discriminate.
Qed.

Lemma lstrip_of_spaces (s : string) :
  all_chars is_space s = true -> lstrip s = "".
Proof. apply lstrip_empty. Qed.

Lemma strip_empty (s : string) : strip s = "" <-> all_chars is_space s = true.
Proof.
  unfold strip. rewrite rstrip_empty. split.
  - apply lstrip_spaces.
  - intros H. now rewrite (lstrip_of_spaces s H).
Qed.

(** ** Header detection *)

Lemma row_text_folded (r : row) : Prelim.row_text r = folded_text r.
Proof.
  unfold Prelim.row_text, join_sp.
  induction r as [|c r IH]; [reflexivity|].
  destruct r as [|c' r]; [reflexivity|].
  change (map (fun c0 => lower (cell_str c0)) (c :: c' :: r))
    with (lower (cell_str c) :: map (fun c0 => lower (cell_str c0)) (c' :: r)).
  change (folded_text (c :: c' :: r))
    with (lower (cell_str c) ++ " " ++ folded_text (c' :: r))%string.
  rewrite <- IH. reflexivity.
Qed.

Lemma blank_row_blank (r : row) : Prelim.blank_row r = true <-> blank r.
Proof.
  unfold Prelim.blank_row, blank. rewrite forallb_forall, Forall_forall.
  split; intros H c Hc; specialize (H c Hc).
  - apply String.eqb_eq in H. now apply strip_empty.
  - apply String.eqb_eq. now apply strip_empty.
Qed.

Lemma group_presentb_spec (text : string) (g : keyword_group) :
  group_presentb text g = true <-> group_present text g.
Proof.
  destruct g; simpl; rewrite ?andb_true_iff, ?contains_occurs; reflexivity.
Qed.

Lemma keywords_found_filter (text : string) :
  Prelim.keywords_found text = length (filter (group_presentb text) all_groups).
Proof.
  unfold Prelim.keywords_found, Prelim.count_true, all_groups. simpl.
  destruct (contains "sess" text), (contains "date" text), (contains "plat" text),
    (contains "weigh" text), (contains "weight" text && contains "category" text);
    reflexivity.
Qed.

Lemma all_groups_NoDup : NoDup all_groups.
Proof.
  unfold all_groups.
  repeat (constructor; [simpl; intuition discriminate|]). constructor.
Qed.

Lemma keywords_found_groups (n : nat) (text : string) :
  (n <= Prelim.keywords_found text)%nat <-> groups_present n text.
Proof.
  rewrite keywords_found_filter. unfold groups_present. split.
  - intros H. exists (firstn n (filter (group_presentb text) all_groups)).
    split; [|split].
    + assert (HN := NoDup_filter (group_presentb text) all_groups_NoDup).
      rewrite <- (firstn_skipn n (filter _ all_groups)) in HN.
      apply NoDup_app_remove_r in HN. exact HN.
    + now apply firstn_length_le.
    + apply Forall_forall. intros g Hg.
      apply group_presentb_spec.
      assert (Hin : In g (filter (group_presentb text) all_groups)).
      { rewrite <- (firstn_skipn n). apply in_or_app. now left. }
      now apply filter_In in Hin.
  - intros [gs [Hnd [Hlen Hall]]]. rewrite <- Hlen.
    apply NoDup_incl_length; [assumption|].
    intros g Hg. apply filter_In. split.
    + unfold all_groups. destruct g; simpl; tauto.
    + apply group_presentb_spec. rewrite Forall_forall in Hall. now apply Hall.
Qed.

Lemma is_header_spec (r : row) : Prelim.is_header r = true <-> header_like r.
Proof.
  unfold Prelim.is_header, header_like.
  rewrite andb_true_iff, negb_true_iff, Nat.leb_le, keywords_found_groups.
  rewrite row_text_folded, <- blank_row_blank.
  destruct (Prelim.blank_row r); intuition congruence.
Qed.

Lemma find_headers_in (t : table) (i : nat) (rows : list row) (sec : Prelim.section) :
  In sec (Prelim.find_headers t i rows) <->
  exists j r,
    nth_error rows j = Some r /\ Prelim.is_header r = true
    /\ sec = {| Prelim.header_row := r; Prelim.start_idx := i + j + 1;
                Prelim.date_text :=
                  Prelim.look_back_date t (i + j)
                    (seq 1 (Nat.min 4 (i + j + 1) - 1)) |}.
Proof.
  revert i. induction rows as [|r rows IH]; intros i; simpl.
  - split; [tauto | intros [[|j] [r [H _]]]; discriminate].
  - destruct (Prelim.is_header r) eqn:E; simpl; rewrite IH; split.
    + intros [H|[j [r' [H1 [H2 H3]]]]].
      * exists 0%nat, r. rewrite Nat.add_0_r. auto.
      * exists (S j), r'. replace (i + S j)%nat with (S i + j)%nat by lia. auto.
    + intros [[|j] [r' [H1 [H2 H3]]]]; simpl in H1.
      * injection H1 as <-. rewrite Nat.add_0_r in H3. auto.
      * right. exists j, r'. replace (S i + j)%nat with (i + S j)%nat by lia. auto.
    + intros [j [r' [H1 [H2 H3]]]].
      exists (S j), r'. replace (i + S j)%nat with (S i + j)%nat by lia. auto.
    + intros [[|j] [r' [H1 [H2 H3]]]]; simpl in H1.
      * injection H1 as <-. congruence.
      * exists j, r'. replace (S i + j)%nat with (i + S j)%nat by lia. auto.
Qed.

(** C7.  A row is taken as a header row exactly when it is not blank and
    its cells, in lower case and joined by blanks, show at least four of
    the five keyword groups sess, date, plat, weigh and weight with
    category.  The sections found are exactly those rows, each section
    starting right after its header, and a table none of whose rows
    qualifies is handed to the parser without headers. *)
Theorem header_needs_four_of_five_groups
    (self : Prelim.scraper) (t : table) (meet_name : string) :
  (forall r, Prelim.is_header r = true <-> header_like r)
  /\ (forall idx,
        (exists sec, In sec (Prelim.header_sections t)
                     /\ Prelim.start_idx sec = (idx + 1)%nat) <->
        (exists r, nth_error t idx = Some r /\ header_like r))
  /\ (forall sec, In sec (Prelim.header_sections t) ->
        nth_error t (Prelim.start_idx sec - 1) = Some (Prelim.header_row sec))
  /\ ((forall r, In r t -> ~ header_like r) ->
      Prelim._parse_table self t meet_name =
      (Prelim._parse_without_headers t meet_name, self)).
Proof.
  split; [apply is_header_spec|]. unfold Prelim.header_sections.
  split; [|split].
  - intros idx. split.
    + intros [sec [Hin Hidx]]. apply find_headers_in in Hin as [j [r [H1 [H2 H3]]]].
      subst sec. simpl in Hidx. assert (j = idx) by lia. subst j.
      exists r. split; [assumption|]. now apply is_header_spec.
    + intros [r [H1 H2]]. apply is_header_spec in H2.
      eexists. split; [apply find_headers_in; exists idx, r; eauto|].
      reflexivity.
  - intros sec Hin. apply find_headers_in in Hin as [j [r [H1 [H2 H3]]]].
    subst sec. simpl. now replace (j + 1 - 1)%nat with j by lia.
  - intros Hno. unfold Prelim._parse_table, Prelim.header_sections.
    destruct (Prelim.find_headers t 0 t) as [|sec secs] eqn:E; [reflexivity|].
    exfalso.
    assert (Hin : In sec (Prelim.find_headers t 0 t)) by (rewrite E; now left).
    apply find_headers_in in Hin as [j [r [H1 [H2 H3]]]].
    apply (Hno r); [now apply nth_error_In in H1 | now apply is_header_spec].
Qed.

(** ** The group suffix of a weight category *)

Lemma space_not_group_letter (x : ascii) :
  is_space x = true -> range "A" "E" x = false.
Proof.
  unfold is_space, range. generalize (code x). intros n.
  change (code "A") with 65%nat. change (code "E") with 69%nat.
  intros H. apply andb_false_iff.
  rewrite !orb_true_iff, !andb_true_iff, !Nat.leb_le, !Nat.eqb_eq in H.
  rewrite !Nat.leb_gt. lia.
Qed.

Lemma suffix_tail_space (c : ascii) (s : string) :
  is_space c = true -> suffix_tail (String c s) = None.
Proof. intros H. simpl. now rewrite (space_not_group_letter c H). Qed.

Section RepSpace.
Context {R : Type}.
Variable K : string -> option R.
Hypothesis K_space : forall c s, is_space c = true -> K (String c s) = None.


End RepSpace.
























Lemma header_needs_four_of_five_groups_witness :
  (forall r, In r table_headerless -> ~ header_like r)
  /\ Prelim._parse_table
       {| Prelim.self_current_date := None; Prelim.self_current_session := None |}
       table_headerless "M"
     = (Prelim._parse_without_headers table_headerless "M",
        {| Prelim.self_current_date := None; Prelim.self_current_session := None |}).
Proof.
  destruct (header_needs_four_of_five_groups
              {| Prelim.self_current_date := None;
                 Prelim.self_current_session := None |}
              table_headerless "M") as [H1 [_ [_ H4]]].
  assert (H : forall r, In r table_headerless -> ~ header_like r).
  { intros r Hr Hl. apply H1 in Hl.
    destruct Hr as [<-|[<-|[]]]; vm_compute in Hl; discriminate. }
  split; [exact H | exact (H4 H)].
Defined.
